(** * Products management API

    A shallow embedding of the request handlers of [app/routers/category.py]
    and of the request schemas of [app/schemas.py].

    What is modelled is the handler functions themselves: each Python
    function becomes a computation in a small state-and-exception monad over
    a database session.  The session carries the two tables and the list of
    SQL statements executed so far, so that "which table was read" is a
    property of a run.  The SQLAlchemy query builder is embedded as a record
    (WHERE conjuncts, ORDER BY keys, OFFSET, LIMIT) with its executors
    [all], [first], [count] and [scalar].

    Outside the model: URL routing and the serialisation of a returned row
    through [response_model].  Prices are Python floats in the source; here
    they are rationals, compared exactly. *)

From Stdlib Require Import List ZArith QArith String Ascii Bool Lia.
From Stdlib Require Import DecimalString.
Import ListNotations.

Local Open Scope Z_scope.

(** ** Python values *)

(** [str(n)] for an [int], as an f-string renders it. *)
Definition str_of_int (n : Z) : string :=
  NilZero.string_of_int (Z.to_int n).

(** Truth value of a [str]: the empty string is false. *)
Definition truthy_str (s : string) : bool :=
  negb (String.eqb s EmptyString).

(** Truth value of [x] for [x : str | None]. *)
Definition truthy_opt_str (x : option string) : bool :=
  match x with
  | Some s => truthy_str s
  | None => false
  end.

(** Truth value of [x] for [x : int | None]: [None] and [0] are false. *)
Definition truthy_opt_int (x : option Z) : bool :=
  match x with
  | Some n => negb (n =? 0)
  | None => false
  end.

(** [a > b] on prices. *)
Definition Qgtb (a b : Q) : bool := negb (Qle_bool a b).

(** ** Rows

    [app/models.py] is not part of the sources.  The handlers read
    [Category.id], [Category.name], [Category.description],
    [Category.products] and [Product.id], [Product.name], [Product.price],
    [Product.in_stock], [Product.category_id]; [ProductUpdateRequest] adds
    [description].  A product attribute holds [None] once [update_product]
    has assigned an explicit null to it, so product columns are options. *)

Module Category.
Record t : Type := make
  { id : Z;
    name : string;
    description : option string }.
End Category.

Module Product.
Record t : Type := make
  { id : Z;
    name : option string;
    description : option string;
    price : option Q;
    in_stock : option bool;
    category_id : option Z }.
End Product.

(** ** Request schemas ([app/schemas.py]) *)

Module CategoryCreate.
Record t : Type := make
  { name : string;
    description : option string }.

(** [Field(min_length=2, max_length=100)], [Field(None, max_length=500)]. *)
Definition valid (d : t) : bool :=
  (2 <=? Z.of_nat (String.length (name d)))
  && (Z.of_nat (String.length (name d)) <=? 100)
  && match description d with
     | Some s => Z.of_nat (String.length s) <=? 500
     | None => true
     end.
End CategoryCreate.

Module CategoryUpdate.
Record t : Type := make
  { name : option string;
    description : option string }.

Definition valid (d : t) : bool :=
  match name d with
  | Some s => (2 <=? Z.of_nat (String.length s))
              && (Z.of_nat (String.length s) <=? 100)
  | None => true
  end
  && match description d with
     | Some s => Z.of_nat (String.length s) <=? 500
     | None => true
     end.
End CategoryUpdate.

(** A field of a pydantic model with default [None]: either it was not in
    the request body ([Unset]), or it was, with a value or an explicit
    null.  [dict(exclude_unset=True)] keeps exactly the [Set] fields. *)
Inductive Field (A : Type) : Type :=
| Unset : Field A
| Set_ : option A -> Field A.
Arguments Unset {A}.
Arguments Set_ {A} _.

(** One [(key, value)] item of the dictionary of an update. *)
Inductive Item : Type :=
| item_name (v : option string)
| item_description (v : option string)
| item_price (v : option Q)
| item_in_stock (v : option bool)
| item_category_id (v : option Z).

Module ProductUpdateRequest.
Record t : Type := make
  { name : Field string;
    description : Field string;
    price : Field Q;
    in_stock : Field bool;
    category_id : Field Z }.

Definition item_of {A} (k : option A -> Item) (f : Field A) : list Item :=
  match f with
  | Unset => []
  | Set_ v => [k v]
  end.

(** [updates.dict(exclude_unset=True).items()], in declaration order. *)
Definition dict_exclude_unset (u : t) : list Item :=
  item_of item_name (name u)
  ++ item_of item_description (description u)
  ++ item_of item_price (price u)
  ++ item_of item_in_stock (in_stock u)
  ++ item_of item_category_id (category_id u).
End ProductUpdateRequest.

(** [setattr(product, key, value)]. *)
Definition setattr (p : Product.t) (i : Item) : Product.t :=
  match i with
  | item_name v =>
      Product.make (Product.id p) v (Product.description p)
        (Product.price p) (Product.in_stock p) (Product.category_id p)
  | item_description v =>
      Product.make (Product.id p) (Product.name p) v
        (Product.price p) (Product.in_stock p) (Product.category_id p)
  | item_price v =>
      Product.make (Product.id p) (Product.name p) (Product.description p)
        v (Product.in_stock p) (Product.category_id p)
  | item_in_stock v =>
      Product.make (Product.id p) (Product.name p) (Product.description p)
        (Product.price p) v (Product.category_id p)
  | item_category_id v =>
      Product.make (Product.id p) (Product.name p) (Product.description p)
        (Product.price p) (Product.in_stock p) v
  end.

(** ** Responses *)

Module Paginated.
Record t : Type := make
  { total : Z;
    limit : Z;
    offset : Z;
    items : list Product.t }.
End Paginated.

Module ProductsCount.
Record t : Type := make
  { total : Z;
    in_stock : Z;
    out_of_stock : Z }.
End ProductsCount.

Module ProductSummary.
Record t : Type := make
  { id : Z;
    name : option string;
    price : option Q }.
End ProductSummary.

Module ProductsStatistics.
Record t : Type := make
  { total_products : Z;
    total_categories : Z;
    in_stock_count : Z;
    out_of_stock_count : Z;
    average_price : option Q;
    min_price : option Q;
    max_price : option Q;
    most_expensive_product : option ProductSummary.t;
    cheapest_product : option ProductSummary.t }.
End ProductsStatistics.

(** ** The session *)

Inductive Table : Type := TCategory | TProduct.

Inductive Stmt : Type :=
| SELECT (t : Table)
| INSERT (t : Table)
| UPDATE (t : Table)
| DELETE (t : Table).

Record Database : Type := mkDatabase
  { categories : list Category.t;
    products : list Product.t }.

Record Session : Type := mkSession
  { db : Database;
    executed : list Stmt }.

Record HTTPException : Type := mkHTTPException
  { status_code : Z;
    detail : string }.

Definition HTTP_400_BAD_REQUEST : Z := 400.
Definition HTTP_404_NOT_FOUND : Z := 404.

Inductive Result (A : Type) : Type :=
| Return : A -> Result A
| Raise : HTTPException -> Result A.
Arguments Return {A} _.
Arguments Raise {A} _.

(** A handler run: from a session to an outcome and the session after. *)
Definition M (A : Type) : Type := Session -> Result A * Session.

Definition ret {A} (a : A) : M A := fun s => (Return a, s).

Definition bind {A B} (m : M A) (k : A -> M B) : M B :=
  fun s =>
    match m s with
    | (Return a, s') => k a s'
    | (Raise e, s') => (Raise e, s')
    end.

Definition raise {A} (code : Z) (msg : string) : M A :=
  fun s => (Raise (mkHTTPException code msg), s).

Declare Scope handler_scope.
Delimit Scope handler_scope with handler.
Notation "x <- m ;; k" := (bind m (fun x => k))
  (at level 61, m at next level, right associativity) : handler_scope.
Notation "m ;; k" := (bind m (fun _ => k))
  (at level 61, right associativity) : handler_scope.
Local Open Scope handler_scope.

(** Running one statement: it is appended to the session's record. *)
Definition execute (st : Stmt) : M unit :=
  fun s => (Return tt, mkSession (db s) (executed s ++ [st])).

Definition read : M Database := fun s => (Return (db s), s).

Definition write (d : Database) : M unit :=
  fun s => (Return tt, mkSession d (executed s)).

(** ** Mapped classes and the query builder *)

(** What the handlers use of a mapped class: its table, its rows in a
    database, and its primary key. *)
Class Mapped (R : Type) : Type :=
  { table : Table;
    rows : Database -> list R;
    primary_key : R -> Z }.

#[export] Instance Category_mapped : Mapped Category.t :=
  {| table := TCategory; rows := categories; primary_key := Category.id |}.

#[export] Instance Product_mapped : Mapped Product.t :=
  {| table := TProduct; rows := products; primary_key := Product.id |}.

(** Stable insertion sort, the order the store gives to ORDER BY. *)
Fixpoint insert_by {R} (le : R -> R -> bool) (x : R) (l : list R) : list R :=
  match l with
  | [] => [x]
  | y :: l' => if le x y then x :: y :: l' else y :: insert_by le x l'
  end.

Definition sort_by_key {R} (le : R -> R -> bool) (l : list R) : list R :=
  fold_right (insert_by le) [] l.

(** Several keys: the first one given is the major key. *)
Definition ordered {R} (keys : list (R -> R -> bool)) (l : list R) : list R :=
  fold_right sort_by_key l keys.

Definition paged {R} (off lim : option Z) (l : list R) : list R :=
  let l1 := match off with
            | Some n => skipn (Z.to_nat n) l
            | None => l
            end in
  match lim with
  | Some n => firstn (Z.to_nat n) l1
  | None => l1
  end.

Module Query.
(** A query under construction.  [filter] adds a WHERE conjunct,
    [order_by] an ORDER BY key; nothing is read until an executor runs. *)
Record t (R : Type) : Type := make
  { where_ : list (R -> bool);
    order : list (R -> R -> bool);
    offset_ : option Z;
    limit_ : option Z }.
Arguments make {R} _ _ _ _.
Arguments where_ {R} _.
Arguments order {R} _.
Arguments offset_ {R} _.
Arguments limit_ {R} _.

Definition filter {R} (q : t R) (c : R -> bool) : t R :=
  make (where_ q ++ [c]) (order q) (offset_ q) (limit_ q).

Definition order_by {R} (q : t R) (o : R -> R -> bool) : t R :=
  make (where_ q) (order q ++ [o]) (offset_ q) (limit_ q).

Definition offset {R} (q : t R) (n : Z) : t R :=
  make (where_ q) (order q) (Some n) (limit_ q).

Definition limit {R} (q : t R) (n : Z) : t R :=
  make (where_ q) (order q) (offset_ q) (Some n).

(** A row is selected when every WHERE conjunct is true on it (a
    conjunct that is NULL on the row does not select it). *)
Definition selected {R} (q : t R) (r : R) : bool :=
  forallb (fun c => c r) (where_ q).

(** The rows a query denotes: WHERE, then ORDER BY, then OFFSET and
    LIMIT. *)
Definition select {R} (q : t R) (l : list R) : list R :=
  paged (offset_ q) (limit_ q)
    (ordered (order q) (List.filter (selected q) l)).

(** *** Executors *)

Definition all {R} `{Mapped R} (q : t R) : M (list R) :=
  execute (SELECT table) ;;
  d <- read ;;
  ret (select q (rows d)).

(** [first()] runs the query with LIMIT 1. *)
Definition first {R} `{Mapped R} (q : t R) : M (option R) :=
  execute (SELECT table) ;;
  d <- read ;;
  ret (hd_error (select q (rows d))).

(** [count()] counts the rows of the query as it stands. *)
Definition count {R} `{Mapped R} (q : t R) : M Z :=
  execute (SELECT table) ;;
  d <- read ;;
  ret (Z.of_nat (List.length (select q (rows d)))).

(** [scalar()] of a query on one aggregate [f] of a column. *)
Definition scalar {R A} `{Mapped R} (f : list R -> A) (q : t R) : M A :=
  execute (SELECT table) ;;
  d <- read ;;
  ret (f (select q (rows d))).
End Query.

(** [session.query(R)]. *)
Definition session_query (R : Type) : Query.t R := Query.make [] [] None None.

(** [session.query(R).get(pk)]. *)
Definition session_get (R : Type) `{Mapped R} (pk : Z) : M (option R) :=
  Query.first (Query.filter (session_query R) (fun r => primary_key r =? pk)).

(** *** Column expressions *)

(** [column == value]; a NULL column is equal to nothing. *)
Definition eq_col {R A} (eqb : A -> A -> bool) (col : R -> option A) (v : A)
  : R -> bool :=
  fun r => match col r with
           | Some x => eqb x v
           | None => false
           end.

(** [column >= value] and [column <= value] on prices. *)
Definition ge_col {R} (col : R -> option Q) (v : Q) : R -> bool :=
  fun r => match col r with
           | Some x => Qle_bool v x
           | None => false
           end.

Definition le_col {R} (col : R -> option Q) (v : Q) : R -> bool :=
  fun r => match col r with
           | Some x => Qle_bool x v
           | None => false
           end.

(** [Category.name == value]: the name of a category is never NULL, and
    [== None] asks for a NULL name. *)
Definition name_is (v : option string) : Category.t -> bool :=
  fun c => match v with
           | Some n => String.eqb (Category.name c) n
           | None => false
           end.

(** ASCII case folding, for ILIKE. *)
Definition lower (c : ascii) : ascii :=
  let n := N_of_ascii c in
  if ((65 <=? n) && (n <=? 90))%N then ascii_of_N (n + 32) else c.

(** LIKE on folded characters: [%] stands for any run of characters and
    [_] for any one character; no character escapes another (whether the
    backslash does depends on the store's dialect). *)
Fixpoint like (pat s : string) : bool :=
  match pat with
  | EmptyString =>
      match s with
      | EmptyString => true
      | String _ _ => false
      end
  | String c pat' =>
      if Ascii.eqb c "%"%char then
        (fix any (s0 : string) : bool :=
           like pat' s0
           || match s0 with
              | EmptyString => false
              | String _ s1 => any s1
              end) s
      else
        match s with
        | EmptyString => false
        | String d s' =>
            (Ascii.eqb c "_"%char || Ascii.eqb (lower c) (lower d))
            && like pat' s'
        end
  end.

(** [column.ilike(pattern)]. *)
Definition ilike {R} (col : R -> option string) (pat : string) : R -> bool :=
  fun r => match col r with
           | Some x => like pat x
           | None => false
           end.

(** The pattern of the f-string [f"%{name}%"]. *)
Definition contains_pattern (name : string) : string :=
  ("%" ++ name ++ "%")%string.

(** [asc(column)] and [desc(column)]; NULL sorts below every value. *)
Definition null_le {A} (le : A -> A -> bool) (a b : option A) : bool :=
  match a, b with
  | None, _ => true
  | Some _, None => false
  | Some x, Some y => le x y
  end.

Definition asc {R A} (le : A -> A -> bool) (col : R -> option A)
  : R -> R -> bool :=
  fun r1 r2 => null_le le (col r1) (col r2).

Definition desc {R A} (le : A -> A -> bool) (col : R -> option A)
  : R -> R -> bool :=
  fun r1 r2 => null_le le (col r2) (col r1).

(** *** Aggregates *)

Fixpoint non_null {A} (l : list (option A)) : list A :=
  match l with
  | [] => []
  | Some x :: l' => x :: non_null l'
  | None :: l' => non_null l'
  end.

(** [func.count(column)] of a primary key, which is never NULL. *)
Definition func_count {R} (l : list R) : Z := Z.of_nat (List.length l).

Definition Qsum (l : list Q) : Q := fold_right Qplus 0%Q l.

(** [func.avg(column)]: NULL when no row has a value.  The store computes
    the mean of float prices in floating point; here it is the exact mean
    of the rationals, and no statement below rests on its value. *)
Definition func_avg {R} (col : R -> option Q) (l : list R) : option Q :=
  match non_null (map col l) with
  | [] => None
  | x :: xs =>
      Some (Qred (Qsum (x :: xs)
                  / inject_Z (Z.of_nat (List.length (x :: xs)))))%Q
  end.

Definition func_min {R} (col : R -> option Q) (l : list R) : option Q :=
  match non_null (map col l) with
  | [] => None
  | x :: xs => Some (fold_right (fun a m => if Qle_bool a m then a else m) x xs)
  end.

Definition func_max {R} (col : R -> option Q) (l : list R) : option Q :=
  match non_null (map col l) with
  | [] => None
  | x :: xs => Some (fold_right (fun a m => if Qle_bool m a then a else m) x xs)
  end.

(** *** Writing *)

(** Modelled from the spec: the identifier is "unique, server-generated"
    ([app/models.py], which declares the key column, is absent).  The store
    gives a new row the successor of the largest key of its table. *)
Definition fresh_id {R} `{Mapped R} (l : list R) : Z :=
  1 + fold_right Z.max 0 (map primary_key l).

(** Modelled from the spec: the tables of [app/models.py] (absent) are
    taken without NOT NULL or foreign-key constraints, the spec's "not
    explicitly enforced in observed behavior"; a commit always succeeds.

    [session.add(Category(name=..., description=...))], [commit()] and
    [refresh()]: the row is inserted under a new key and read back. *)
Definition add_category (n : string) (descr : option string) : M Category.t :=
  d <- read ;;
  let c := Category.make (fresh_id (categories d)) n descr in
  execute (INSERT TCategory) ;;
  write (mkDatabase (categories d ++ [c]) (products d)) ;;
  execute (SELECT TCategory) ;;
  ret c.

(** Assignments to a loaded row, then [commit()] and [refresh()]: the row
    of that key is replaced and read back; as for [add_category], the
    commit checks no constraint. *)
Definition replace {R} `{Mapped R} (r : R) (l : list R) : list R :=
  map (fun x => if primary_key x =? primary_key r then r else x) l.

Definition commit_category (c : Category.t) : M Category.t :=
  d <- read ;;
  execute (UPDATE TCategory) ;;
  write (mkDatabase (replace c (categories d)) (products d)) ;;
  execute (SELECT TCategory) ;;
  ret c.

Definition commit_product (p : Product.t) : M Product.t :=
  d <- read ;;
  execute (UPDATE TProduct) ;;
  write (mkDatabase (categories d) (replace p (products d))) ;;
  execute (SELECT TProduct) ;;
  ret p.

(** [session.delete(row)] and [commit()]. *)
Definition remove {R} `{Mapped R} (r : R) (l : list R) : list R :=
  List.filter (fun x => negb (primary_key x =? primary_key r)) l.

Definition delete_category_row (c : Category.t) : M unit :=
  d <- read ;;
  execute (DELETE TCategory) ;;
  write (mkDatabase (remove c (categories d)) (products d)).

Definition delete_product_row (p : Product.t) : M unit :=
  d <- read ;;
  execute (DELETE TProduct) ;;
  write (mkDatabase (categories d) (remove p (products d))).

(** [category.products]: the dynamic relationship, a query on the products
    whose [category_id] is the category's key. *)
Definition Category_products (c : Category.t) : Query.t Product.t :=
  Query.filter (session_query Product.t)
    (eq_col Z.eqb Product.category_id (Category.id c)).

(** ** The handlers ([app/routers/category.py]) *)

Local Open Scope string_scope.
Local Open Scope Z_scope.

Definition get_categories : M (list Category.t) :=
  Query.all (session_query Category.t).

Definition get_one_category (category_id : Z) : M Category.t :=
  category <- session_get Category.t category_id ;;
  match category with
  | None => raise HTTP_404_NOT_FOUND "Category not found."
  | Some c => ret c
  end.

Definition create_category (data : CategoryCreate.t) : M Category.t :=
  existing_category <-
    Query.first (Query.filter (session_query Category.t)
                   (name_is (Some (CategoryCreate.name data)))) ;;
  match existing_category with
  | Some _ =>
      raise HTTP_400_BAD_REQUEST "Category with this name already exists"
  | None =>
      add_category (CategoryCreate.name data) (CategoryCreate.description data)
  end.

Definition update_category (category_id : Z) (data : CategoryUpdate.t)
  : M Category.t :=
  existing_category <- session_get Category.t category_id ;;
  match existing_category with
  | None => raise HTTP_404_NOT_FOUND "Category not found"
  | Some c =>
      same_name <-
        Query.first (Query.filter (session_query Category.t)
                       (name_is (CategoryUpdate.name data))) ;;
      match same_name with
      | Some _ =>
          raise HTTP_400_BAD_REQUEST
            "Category with name 'Electronics' already exists"
      | None =>
          let name :=
            match CategoryUpdate.name data with
            | Some n => if truthy_str n then n else Category.name c
            | None => Category.name c
            end in
          let description :=
            if truthy_opt_str (CategoryUpdate.description data)
            then CategoryUpdate.description data
            else Category.description c in
          commit_category (Category.make (Category.id c) name description)
      end
  end.

Definition delete_category (category_id : Z) : M string :=
  existing_category <- session_get Category.t category_id ;;
  match existing_category with
  | None => raise HTTP_404_NOT_FOUND "Category not found"
  | Some c =>
      products <- Query.count (Category_products c) ;;
      if 0 <? products then
        raise HTTP_400_BAD_REQUEST
          ("Cannot delete category. " ++ str_of_int products
           ++ " products are linked to this category")
      else
        delete_category_row c ;;
        ret "Category deleted successfully"
  end.

Definition get_all_products : M (list Product.t) :=
  Query.all (session_query Product.t).

Definition product_not_found (product_id : Z) : string :=
  "Product with id " ++ str_of_int product_id ++ " not found".

Definition category_not_found (category_id : Z) : string :=
  "Category with id " ++ str_of_int category_id ++ " not found".

Definition get_product_by_id (product_id : Z) : M Product.t :=
  product <-
    Query.first (Query.filter (session_query Product.t)
                   (fun p => Product.id p =? product_id)) ;;
  match product with
  | None => raise HTTP_404_NOT_FOUND (product_not_found product_id)
  | Some p => ret p
  end.

Definition update_product (product_id : Z) (updates : ProductUpdateRequest.t)
  : M Product.t :=
  product <-
    Query.first (Query.filter (session_query Product.t)
                   (fun p => Product.id p =? product_id)) ;;
  match product with
  | None => raise HTTP_404_NOT_FOUND (product_not_found product_id)
  | Some p =>
      let update_data := ProductUpdateRequest.dict_exclude_unset updates in
      commit_product (fold_left setattr update_data p)
  end.

Definition delete_product (product_id : Z) : M string :=
  product <-
    Query.first (Query.filter (session_query Product.t)
                   (fun p => Product.id p =? product_id)) ;;
  match product with
  | None => raise HTTP_404_NOT_FOUND (product_not_found product_id)
  | Some p =>
      delete_product_row p ;;
      ret "Product o'chirildi"
  end.

Definition search_products (name : option string) : M (list Product.t) :=
  let query := session_query Product.t in
  let query :=
    if truthy_opt_str name
    then match name with
         | Some n =>
             Query.filter query (ilike Product.name (contains_pattern n))
         | None => query
         end
    else query in
  Query.all query.

Definition price_range_check (min_price max_price : option Q) : M unit :=
  match min_price, max_price with
  | Some lo, Some hi =>
      if Qgtb lo hi then
        raise HTTP_400_BAD_REQUEST "min_price cannot be greater than max_price"
      else ret tt
  | _, _ => ret tt
  end.

Definition filter_products_by_price (min_price max_price : option Q)
  : M (list Product.t) :=
  price_range_check min_price max_price ;;
  let query := session_query Product.t in
  let query :=
    match min_price with
    | Some lo => Query.filter query (ge_col Product.price lo)
    | None => query
    end in
  let query :=
    match max_price with
    | Some hi => Query.filter query (le_col Product.price hi)
    | None => query
    end in
  Query.all query.

Definition filter_products_by_stock (in_stock : bool) : M (list Product.t) :=
  Query.all (Query.filter (session_query Product.t)
               (eq_col Bool.eqb Product.in_stock in_stock)).

Definition get_products_paginated (limit offset : Z) : M Paginated.t :=
  total <- Query.count (session_query Product.t) ;;
  items <-
    Query.all (Query.limit (Query.offset (session_query Product.t) offset)
                 limit) ;;
  ret (Paginated.make total limit offset items).

Definition category_exists_check (category_id : Z) : M unit :=
  category <-
    Query.first (Query.filter (session_query Category.t)
                   (fun c => Category.id c =? category_id)) ;;
  match category with
  | None => raise HTTP_404_NOT_FOUND (category_not_found category_id)
  | Some _ => ret tt
  end.

Definition get_products_by_category_id (category_id : Z)
  : M (list Product.t) :=
  category_exists_check category_id ;;
  Query.all (Query.filter (session_query Product.t)
               (eq_col Z.eqb Product.category_id category_id)).

Definition sort_products_by_price (order : string) : M (list Product.t) :=
  if String.eqb order "asc"
  then Query.all (Query.order_by (session_query Product.t)
                    (asc Qle_bool Product.price))
  else Query.all (Query.order_by (session_query Product.t)
                    (desc Qle_bool Product.price)).

(** The [if sort_by:] block of [advanced_search_products]. *)
Definition apply_sort (sort_by : option string) (query : Query.t Product.t)
  : Query.t Product.t :=
  match sort_by with
  | None => query
  | Some k =>
      if truthy_str k then
        if String.eqb k "price_asc" then
          Query.order_by query (asc Qle_bool Product.price)
        else if String.eqb k "price_desc" then
          Query.order_by query (desc Qle_bool Product.price)
        else if String.eqb k "name_asc" then
          Query.order_by query (asc String.leb Product.name)
        else if String.eqb k "name_desc" then
          Query.order_by query (desc String.leb Product.name)
        else query
      else query
  end.

(** The five [if ...: query = query.filter(...)] of
    [advanced_search_products], in their order. *)
Definition apply_filters (name : option string) (category_id : option Z)
  (min_price max_price : option Q) (in_stock : option bool)
  (query : Query.t Product.t) : Query.t Product.t :=
  let query :=
    match name with
    | Some n =>
        if truthy_str n
        then Query.filter query (ilike Product.name (contains_pattern n))
        else query
    | None => query
    end in
  let query :=
    match category_id with
    | Some c =>
        if truthy_opt_int category_id
        then Query.filter query (eq_col Z.eqb Product.category_id c)
        else query
    | None => query
    end in
  let query :=
    match min_price with
    | Some lo => Query.filter query (ge_col Product.price lo)
    | None => query
    end in
  let query :=
    match max_price with
    | Some hi => Query.filter query (le_col Product.price hi)
    | None => query
    end in
  match in_stock with
  | Some b => Query.filter query (eq_col Bool.eqb Product.in_stock b)
  | None => query
  end.

Definition advanced_search_products
  (name : option string) (category_id : option Z)
  (min_price max_price : option Q) (in_stock : option bool)
  (sort_by : option string) (limit offset : Z) : M Paginated.t :=
  price_range_check min_price max_price ;;
  match category_id with
  | Some c => category_exists_check c
  | None => ret tt
  end ;;
  let query := session_query Product.t in
  let query :=
    apply_filters name category_id min_price max_price in_stock query in
  total <- Query.count query ;;
  let query := apply_sort sort_by query in
  items <- Query.all (Query.limit (Query.offset query offset) limit) ;;
  ret (Paginated.make total limit offset items).

Definition get_products_count (category_id : option Z) (in_stock : option bool)
  : M ProductsCount.t :=
  let query := session_query Product.t in
  query <-
    match category_id with
    | Some c =>
        category_exists_check c ;;
        ret (Query.filter query (eq_col Z.eqb Product.category_id c))
    | None => ret query
    end ;;
  let query :=
    match in_stock with
    | Some b => Query.filter query (eq_col Bool.eqb Product.in_stock b)
    | None => query
    end in
  total <- Query.count query ;;
  in_stock_count <-
    Query.count (Query.filter query (eq_col Bool.eqb Product.in_stock true)) ;;
  let out_of_stock_count := total - in_stock_count in
  ret (ProductsCount.make total in_stock_count out_of_stock_count).

Definition summary (p : Product.t) : ProductSummary.t :=
  ProductSummary.make (Product.id p) (Product.name p) (Product.price p).

Definition get_products_statistics : M ProductsStatistics.t :=
  total_products <- Query.scalar func_count (session_query Product.t) ;;
  total_categories <- Query.scalar func_count (session_query Category.t) ;;
  in_stock_count <-
    Query.scalar func_count
      (Query.filter (session_query Product.t)
         (eq_col Bool.eqb Product.in_stock true)) ;;
  let out_of_stock_count :=
    if negb (total_products =? 0) then total_products - in_stock_count
    else 0 in
  average_price <-
    Query.scalar (func_avg Product.price) (session_query Product.t) ;;
  min_price <-
    Query.scalar (func_min Product.price) (session_query Product.t) ;;
  max_price <-
    Query.scalar (func_max Product.price) (session_query Product.t) ;;
  most_expensive <-
    Query.first (Query.order_by (session_query Product.t)
                   (desc Qle_bool Product.price)) ;;
  cheapest <-
    Query.first (Query.order_by (session_query Product.t)
                   (asc Qle_bool Product.price)) ;;
  ret (ProductsStatistics.make total_products total_categories
         in_stock_count out_of_stock_count
         average_price min_price max_price
         (option_map summary most_expensive)
         (option_map summary cheapest)).

(** ** The declared constraints on query parameters *)

(** [Query(min_length=1)], [Query(gt=0)], [Query(ge=0)], the [regex] of
    [sort_by], [Query(ge=1, le=100)] and [Query(ge=0)] on the parameters of
    [advanced_search_products]. *)
Definition sort_keys : list string :=
  ["price_asc"; "price_desc"; "name_asc"; "name_desc"].

Definition valid_sort_by (sort_by : option string) : bool :=
  match sort_by with
  | Some k => existsb (String.eqb k) sort_keys
  | None => true
  end.

Definition valid_page (limit offset : Z) : bool :=
  (1 <=? limit) && (limit <=? 100) && (0 <=? offset).

Definition valid_filters (name : option string) (category_id : option Z)
  (min_price max_price : option Q) : bool :=
  match name with
  | Some n => 1 <=? Z.of_nat (String.length n)
  | None => true
  end
  && match category_id with
     | Some c => 0 <? c
     | None => true
     end
  && match min_price with
     | Some lo => Qle_bool 0 lo
     | None => true
     end
  && match max_price with
     | Some hi => Qle_bool 0 hi
     | None => true
     end.

(** ** Vocabulary of the statements *)

(** The category, and the product, stored under a key. *)
Definition category_of (d : Database) (category_id : Z) : option Category.t :=
  find (fun c => Category.id c =? category_id) (categories d).

Definition product_of (d : Database) (product_id : Z) : option Product.t :=
  find (fun p => Product.id p =? product_id) (products d).

(** The number of rows of [l] on which [f] holds. *)
Definition number_of {R} (f : R -> bool) (l : list R) : Z :=
  Z.of_nat (List.length (List.filter f l)).

(** A product is linked to a category when its foreign key is the
    category's key. *)
Definition linked_to (c : Category.t) (p : Product.t) : bool :=
  match Product.category_id p with
  | Some k => k =? Category.id c
  | None => false
  end.

Definition linked_products (d : Database) (c : Category.t) : Z :=
  number_of (linked_to c) (products d).

(** An optional criterion: absent, it accepts every row. *)
Definition when {A} (o : option A) (f : A -> bool) : bool :=
  match o with
  | Some a => f a
  | None => true
  end.

(** The conjunction of the filters of an advanced search, as the handler
    composes them: the name is matched by the LIKE pattern of [name]
    whatever the case, the [category_id], the price bounds and the stock
    flag are compared with the columns. *)
Definition matches_filters (name : option string) (category_id : option Z)
  (min_price max_price : option Q) (in_stock : option bool) (p : Product.t)
  : bool :=
  when name (fun n => ilike Product.name (contains_pattern n) p)
  && when category_id (fun c => eq_col Z.eqb Product.category_id c p)
  && when min_price (fun lo => ge_col Product.price lo p)
  && when max_price (fun hi => le_col Product.price hi p)
  && when in_stock (fun b => eq_col Bool.eqb Product.in_stock b p).

(** A product matches the filter of the count operation. *)
Definition matches_count (category_id : option Z) (in_stock : option bool)
  (p : Product.t) : bool :=
  when category_id (fun c => eq_col Z.eqb Product.category_id c p)
  && when in_stock (fun b => eq_col Bool.eqb Product.in_stock b p).

Definition is_in_stock (p : Product.t) : bool :=
  eq_col Bool.eqb Product.in_stock true p.

(** The price bounds are consistent unless both are present with
    [min_price > max_price]. *)
Definition consistent_bounds (min_price max_price : option Q) : Prop :=
  forall lo hi, min_price = Some lo -> max_price = Some hi -> (lo <= hi)%Q.

(** A present [category_id] names a stored category. *)
Definition known_category (d : Database) (category_id : option Z) : Prop :=
  forall c, category_id = Some c -> category_of d c <> None.

(** How an update leaves one attribute: an absent field keeps the prior
    value, a supplied one gives its own. *)
Definition updated {A} (f : Field A) (before after : option A) : Prop :=
  match f with
  | Unset => after = before
  | Set_ v => after = v
  end.

(** The request body [{price: 20}]. *)
Definition only_price_20 : ProductUpdateRequest.t :=
  ProductUpdateRequest.make Unset Unset (Set_ (Some 20%Q)) Unset Unset.

(** The statements a run adds to those of the session it starts from. *)
Definition no_statement_on (t : Table) (l : list Stmt) : Prop :=
  forall st, In st l ->
    st <> SELECT t /\ st <> INSERT t /\ st <> UPDATE t /\ st <> DELETE t.

(** A query that has neither ORDER BY nor OFFSET nor LIMIT. *)
Definition unordered {R} (q : Query.t R) : Prop :=
  Query.order q = [] /\ Query.offset_ q = None /\ Query.limit_ q = None.

(** The session after a successful [update_product] that leaves [p']. *)
Definition updated_session (s : Session) (p' : Product.t) : Session :=
  mkSession
    (mkDatabase (categories (db s)) (replace p' (products (db s))))
    (executed s ++ [SELECT TProduct; UPDATE TProduct; SELECT TProduct]).

(** The session once one more statement has run. *)
Definition after (s : Session) (st : Stmt) : Session :=
  mkSession (db s) (executed s ++ [st]).

(** The session after a successful advanced search. *)
Definition searched (s : Session) (category_id : option Z) : Session :=
  let s1 := match category_id with
            | Some _ => after s (SELECT TCategory)
            | None => s
            end in
  after (after s1 (SELECT TProduct)) (SELECT TProduct).

(** *** Sample data *)

Definition electronics : Category.t :=
  Category.make 1 "Electronics" (Some "Devices").

Definition books : Category.t := Category.make 2 "Books" None.

Definition phone : Product.t :=
  Product.make 1 (Some "Phone") (Some "A phone") (Some 10%Q) (Some true)
    (Some 1).

Definition laptop : Product.t :=
  Product.make 2 (Some "Laptop") None (Some 30%Q) (Some false) (Some 1).

Definition shop : Session :=
  mkSession (mkDatabase [electronics; books] [phone; laptop]) [].

Definition empty_shop : Session :=
  mkSession (mkDatabase [electronics; books] []) [].

Definition toys : CategoryCreate.t :=
  CategoryCreate.make "Toys" (Some "For children").

(** ** Vocabulary of further properties *)

From Stdlib Require Import Sorted Permutation.

Definition is_select (st : Stmt) : bool :=
  match st with
  | SELECT _ => true
  | _ => false
  end.

(** A computation that only reads: whatever the session it starts from
    and whatever its outcome, the database is the same afterwards and the
    statements it has run are SELECTs. *)
Definition reads_only {A} (m : M A) : Prop :=
  forall s : Session,
    db (snd (m s)) = db s
    /\ exists added : list Stmt,
         executed (snd (m s)) = (executed s ++ added)%list
         /\ forallb is_select added = true.

(** The value an attribute takes in [update_category]: that of the body
    when it is there and not empty, the prior one otherwise. *)
Definition or_prior (supplied : option string) (prior : string) : string :=
  match supplied with
  | Some v => if truthy_str v then v else prior
  | None => prior
  end.

Definition or_prior_opt (supplied prior : option string) : option string :=
  if truthy_opt_str supplied then supplied else prior.

(** The session after a successful [update_category] that leaves [c']. *)
Definition updated_category_session (s : Session) (c' : Category.t)
  : Session :=
  mkSession
    (mkDatabase (replace c' (categories (db s))) (products (db s)))
    (executed s
     ++ [SELECT TCategory; SELECT TCategory; UPDATE TCategory;
         SELECT TCategory]).

(** The invariants of the store: no two rows of a table have the same
    key, and no two categories have the same name. *)
Definition unique_keys (d : Database) : Prop :=
  NoDup (map Category.id (categories d))
  /\ NoDup (map Product.id (products d)).

Definition unique_names (d : Database) : Prop :=
  NoDup (map Category.name (categories d)).

(** The price of a product is within the bounds: with no bound every
    product is, a product without a price included; with a bound only a
    product that has a price can be. *)
Definition price_within (min_price max_price : option Q) (p : Product.t)
  : Prop :=
  match min_price, max_price with
  | None, None => True
  | _, _ =>
      exists x : Q,
        Product.price p = Some x
        /\ (forall lo, min_price = Some lo -> (lo <= x)%Q)
        /\ (forall hi, max_price = Some hi -> (x <= hi)%Q)
  end.

(** A search term is plain when none of its characters is a wildcard of
    LIKE. *)
Fixpoint plain (n : string) : bool :=
  match n with
  | EmptyString => true
  | String c n' =>
      negb (Ascii.eqb c "%"%char) && negb (Ascii.eqb c "_"%char) && plain n'
  end.

Fixpoint fold_case (s : string) : string :=
  match s with
  | EmptyString => EmptyString
  | String c s' => String (lower c) (fold_case s')
  end.

(** [x] contains [n] whatever the case of the ASCII letters. *)
Definition contains_ci (x n : string) : Prop :=
  exists a m b : string,
    x = (a ++ m ++ b)%string /\ fold_case m = fold_case n.

(** Two products are in ascending order of price when the price of the
    first, if both have one, is at most that of the second. *)
Definition price_ascending (a b : Product.t) : Prop :=
  forall x y : Q,
    Product.price a = Some x -> Product.price b = Some y -> (x <= y)%Q.

Definition price_descending (a b : Product.t) : Prop :=
  price_ascending b a.

(** The ORDER BY keys that [sort_by] stands for: one for each of the four
    keys of the handler, none otherwise. *)
Definition order_keys (sort_by : option string)
  : list (Product.t -> Product.t -> bool) :=
  Query.order (apply_sort sort_by (session_query Product.t)).

(** ** One more handler

    [filter_products_by_category] joins the products with their category
    through [Product.category], the relationship from a product to the
    category that its [category_id] names (declared with the tables), and
    keeps those for which [Product.category.has(name=category)] holds: a
    category with the key [category_id] of the product and that name
    exists.  The join keeps the products that have a category at all,
    which the condition implies; the query returns each product once. *)

(** [Product.category.has(name=category)] on a row. *)
Definition category_has_name (d : Database) (category : string)
  (p : Product.t) : bool :=
  existsb
    (fun c => eq_col Z.eqb Product.category_id (Category.id c) p
              && String.eqb (Category.name c) category)
    (categories d).

Definition filter_products_by_category (category : string)
  : M (list Product.t) :=
  d <- read ;;
  Query.all (Query.filter (session_query Product.t)
               (category_has_name d category)).

(** ** The criteria of a search, in the words of the specification

    Section 4.1 of the specification gives the meaning of each criterion:
    a case-insensitive "contains" on the name, the category, the price
    bounds, equality on the stock flag, each one absent or present and all
    of them joined by "and".  [meets_criteria] says so as a proposition
    and [meets] decides it; neither uses the column expressions of the
    handler. *)
Definition meets_criteria (name : option string) (category_id : option Z)
  (min_price max_price : option Q) (in_stock : option bool) (p : Product.t)
  : Prop :=
  (forall n, name = Some n ->
             exists x, Product.name p = Some x /\ contains_ci x n)
  /\ (forall c, category_id = Some c -> Product.category_id p = Some c)
  /\ (forall lo, min_price = Some lo ->
                 exists x, Product.price p = Some x /\ (lo <= x)%Q)
  /\ (forall hi, max_price = Some hi ->
                 exists x, Product.price p = Some x /\ (x <= hi)%Q)
  /\ (forall b, in_stock = Some b -> Product.in_stock p = Some b).

(** [x] starts with [n], and [n] occurs in [x], whatever the case of the
    ASCII letters. *)
Fixpoint starts_with_ci (n x : string) : bool :=
  match n, x with
  | EmptyString, _ => true
  | String _ _, EmptyString => false
  | String c n', String d x' =>
      Ascii.eqb (lower c) (lower d) && starts_with_ci n' x'
  end.

Fixpoint occurs_ci (n x : string) : bool :=
  starts_with_ci n x
  || match x with
     | EmptyString => false
     | String _ x' => occurs_ci n x'
     end.

Definition meets (name : option string) (category_id : option Z)
  (min_price max_price : option Q) (in_stock : option bool) (p : Product.t)
  : bool :=
  match name with
  | None => true
  | Some n =>
      match Product.name p with
      | Some x => occurs_ci n x
      | None => false
      end
  end
  && match category_id with
     | None => true
     | Some c =>
         match Product.category_id p with
         | Some k => k =? c
         | None => false
         end
     end
  && match min_price with
     | None => true
     | Some lo =>
         match Product.price p with
         | Some x => Qle_bool lo x
         | None => false
         end
     end
  && match max_price with
     | None => true
     | Some hi =>
         match Product.price p with
         | Some x => Qle_bool x hi
         | None => false
         end
     end
  && match in_stock with
     | None => true
     | Some b =>
         match Product.in_stock p with
         | Some v => Bool.eqb v b
         | None => false
         end
     end.

(** The name criterion, if any, is a plain term. *)
Definition plain_term (name : option string) : Prop :=
  forall n, name = Some n -> plain n = true.

(** ** Facts on lists and queries *)

Lemma hd_error_filter {A} (f : A -> bool) (l : list A) :
  hd_error (List.filter f l) = find f l.
Proof.
  induction l as [| x l IH]; simpl; [reflexivity |].
  destruct (f x); [reflexivity | exact IH].
Qed.

Lemma number_of_ext {R} (f g : R -> bool) (l : list R) :
  (forall x, f x = g x) -> number_of f l = number_of g l.
Proof.
  intros E. unfold number_of. rewrite (filter_ext f g E). reflexivity.
Qed.

(** A query with WHERE conjuncts only denotes the selected rows, in table
    order. *)
Lemma select_where {R} (w : list (R -> bool)) (l : list R) :
  Query.select (Query.make w [] None None) l
  = List.filter (Query.selected (Query.make w [] None None)) l.
Proof. reflexivity. Qed.

Lemma selected_filter {R} (q : Query.t R) (c : R -> bool) (r : R) :
  Query.selected (Query.filter q c) r = Query.selected q r && c r.
Proof.
  unfold Query.selected, Query.filter; simpl.
  rewrite forallb_app; simpl. rewrite andb_true_r. reflexivity.
Qed.

Lemma selected_query {R} (r : R) : Query.selected (session_query R) r = true.
Proof. reflexivity. Qed.

Lemma select_one {R} (c : R -> bool) (l : list R) :
  Query.select (Query.filter (session_query R) c) l = List.filter c l.
Proof.
  unfold Query.filter, session_query; simpl. rewrite select_where.
  apply filter_ext. intros r. unfold Query.selected; simpl.
  apply andb_true_r.
Qed.

Lemma select_all {R} (l : list R) : Query.select (session_query R) l = l.
Proof.
  unfold session_query. rewrite select_where.
  induction l as [| x l IH]; simpl; [reflexivity |].
  f_equal. exact IH.
Qed.

(** So does any query that has neither ORDER BY nor OFFSET nor LIMIT. *)
Lemma select_unordered {R} (q : Query.t R) (l : list R) :
  unordered q -> Query.select q l = List.filter (Query.selected q) l.
Proof.
  destruct q as [w o off lim]. intros (Ho & Hoff & Hlim).
  simpl in Ho, Hoff, Hlim. subst. reflexivity.
Qed.

Lemma unordered_query (R : Type) : unordered (session_query R).
Proof. repeat split. Qed.

Lemma unordered_filter {R} (q : Query.t R) (c : R -> bool) :
  unordered q -> unordered (Query.filter q c).
Proof. intros H. exact H. Qed.

(** Paging returns at most [limit] rows. *)
Lemma paged_length {R} (off : option Z) (lim : Z) (l : list R) :
  0 <= lim -> Z.of_nat (List.length (paged off (Some lim) l)) <= lim.
Proof.
  intros Hl. unfold paged.
  pose proof (firstn_le_length (Z.to_nat lim)
                (match off with
                 | Some n => skipn (Z.to_nat n) l
                 | None => l
                 end)) as Hlen.
  lia.
Qed.

(** *** One step of a run *)

Section Runs.
Context {R : Type} `{Mapped R}.

Lemma first_run (q : Query.t R) (s : Session) :
  Query.first q s
  = (Return (hd_error (Query.select q (rows (db s)))),
     after s (SELECT table)).
Proof. reflexivity. Qed.

Lemma count_run (q : Query.t R) (s : Session) :
  Query.count q s
  = (Return (Z.of_nat (List.length (Query.select q (rows (db s))))),
     after s (SELECT table)).
Proof. reflexivity. Qed.

Lemma all_run (q : Query.t R) (s : Session) :
  Query.all q s
  = (Return (Query.select q (rows (db s))), after s (SELECT table)).
Proof. reflexivity. Qed.

Lemma scalar_run {A} (f : list R -> A) (q : Query.t R) (s : Session) :
  Query.scalar f q s
  = (Return (f (Query.select q (rows (db s)))), after s (SELECT table)).
Proof. reflexivity. Qed.

Lemma get_run (k : Z) (s : Session) :
  session_get R k s
  = (Return (find (fun r => primary_key r =? k) (rows (db s))),
     after s (SELECT table)).
Proof.
  unfold session_get. rewrite first_run, select_one, hd_error_filter.
  reflexivity.
Qed.
End Runs.

Lemma bind_run {A B} (m : M A) (k : A -> M B) (s s' : Session) (a : A) :
  m s = (Return a, s') -> bind m k s = k a s'.
Proof. intros E. unfold bind. rewrite E. reflexivity. Qed.

Lemma bind_raise {A B} (m : M A) (k : A -> M B) (s s' : Session)
  (e : HTTPException) :
  m s = (Raise e, s') -> bind m k s = (Raise e, s').
Proof. intros E. unfold bind. rewrite E. reflexivity. Qed.

(** *** The two guards of the advanced search *)

Lemma Qgtb_lt (a b : Q) : Qgtb a b = true <-> (a > b)%Q.
Proof.
  unfold Qgtb. rewrite negb_true_iff. split.
  - intros E. apply Qnot_le_lt. intros L.
    apply Qle_bool_iff in L. congruence.
  - intros L. destruct (Qle_bool a b) eqn:E; [| reflexivity].
    apply Qle_bool_iff in E. exfalso. exact (Qlt_not_le _ _ L E).
Qed.

Lemma price_range_check_raise (lo hi : Q) (s : Session) :
  (lo > hi)%Q ->
  price_range_check (Some lo) (Some hi) s
  = (Raise (mkHTTPException HTTP_400_BAD_REQUEST
              "min_price cannot be greater than max_price"), s).
Proof.
  intros L. unfold price_range_check.
  apply Qgtb_lt in L. rewrite L. reflexivity.
Qed.

Lemma price_range_check_pass (min_price max_price : option Q) (s : Session) :
  consistent_bounds min_price max_price ->
  price_range_check min_price max_price s = (Return tt, s).
Proof.
  intros C. unfold price_range_check.
  destruct min_price as [lo |], max_price as [hi |]; try reflexivity.
  destruct (Qgtb lo hi) eqn:E; [| reflexivity].
  apply Qgtb_lt in E. specialize (C lo hi eq_refl eq_refl).
  exfalso. exact (Qlt_not_le _ _ E C).
Qed.

Lemma category_exists_check_run (c : Z) (s : Session) :
  category_exists_check c s
  = (match category_of (db s) c with
     | Some _ => Return tt
     | None =>
         Raise (mkHTTPException HTTP_404_NOT_FOUND (category_not_found c))
     end, after s (SELECT TCategory)).
Proof.
  unfold category_exists_check, bind.
  rewrite first_run, select_one, hd_error_filter.
  unfold category_of.
  change (rows (db s)) with (categories (db s)).
  destruct (find _ (categories (db s))); reflexivity.
Qed.

(** ** The claims *)

(** C5.  An advanced search whose [min_price] and [max_price] are both
    present with [min_price > max_price] raises 400 (Invalid-Argument),
    whatever the other parameters are, a [category_id] that names no
    category included; the session it ends in is the one it started from:
    the store is unchanged and no statement has run. *)
Theorem advanced_search_inverted_bounds :
  forall (s : Session) (name : option string) (category_id : option Z)
         (lo hi : Q) (in_stock : option bool) (sort_by : option string)
         (limit offset : Z),
    (lo > hi)%Q ->
    advanced_search_products name category_id (Some lo) (Some hi)
      in_stock sort_by limit offset s
    = (Raise (mkHTTPException HTTP_400_BAD_REQUEST
                "min_price cannot be greater than max_price"), s).
Proof.
  intros s name category_id lo hi in_stock sort_by limit offset L.
  unfold advanced_search_products.
  apply bind_raise. apply price_range_check_raise. exact L.
Qed.

Lemma advanced_search_inverted_bounds_witness :
  (50 > 10)%Q
  /\ category_of (db shop) 7 = None
  /\ advanced_search_products (Some "phone") (Some 7) (Some 50%Q) (Some 10%Q)
       (Some true) (Some "price_asc") 20 0 shop
     = (Raise (mkHTTPException HTTP_400_BAD_REQUEST
                 "min_price cannot be greater than max_price"), shop).
Proof.
  split; [reflexivity |].
  split; [reflexivity |].
  apply (advanced_search_inverted_bounds shop (Some "phone") (Some 7)
           50%Q 10%Q (Some true) (Some "price_asc") 20 0).
  reflexivity.
Defined.

(** C6.  An advanced search with consistent price bounds and a
    [category_id] that names no stored category raises 404 (Not-Found);
    the store is unchanged and the only statement the run has executed is
    the lookup of the category: none reads the products. *)
Theorem advanced_search_unknown_category :
  forall (s : Session) (name : option string) (c : Z)
         (min_price max_price : option Q) (in_stock : option bool)
         (sort_by : option string) (limit offset : Z),
    consistent_bounds min_price max_price ->
    category_of (db s) c = None ->
    exists (s' : Session) (added : list Stmt),
      advanced_search_products name (Some c) min_price max_price
        in_stock sort_by limit offset s
      = (Raise (mkHTTPException HTTP_404_NOT_FOUND (category_not_found c)),
         s')
      /\ db s' = db s
      /\ executed s' = (executed s ++ added)%list
      /\ added = [SELECT TCategory]
      /\ no_statement_on TProduct added.
Proof.
  intros s name c min_price max_price in_stock sort_by limit offset C N.
  exists (after s (SELECT TCategory)), [SELECT TCategory].
  split; [| split; [reflexivity | split; [reflexivity | split]]].
  - unfold advanced_search_products.
    rewrite (bind_run _ _ s s tt (price_range_check_pass _ _ s C)).
    apply bind_raise.
    rewrite category_exists_check_run, N. reflexivity.
  - reflexivity.
  - intros st [E | []]. subst st. repeat split; discriminate.
Qed.

Lemma advanced_search_unknown_category_witness :
  exists (s' : Session) (added : list Stmt),
    advanced_search_products (Some "phone") (Some 7) (Some 5%Q) (Some 10%Q)
      (Some true) (Some "price_asc") 20 0 shop
    = (Raise (mkHTTPException HTTP_404_NOT_FOUND
                "Category with id 7 not found"), s')
    /\ db s' = db shop
    /\ executed s' = (executed shop ++ added)%list
    /\ added = [SELECT TCategory]
    /\ no_statement_on TProduct added.
Proof.
  apply (advanced_search_unknown_category shop (Some "phone") 7
           (Some 5%Q) (Some 10%Q) (Some true) (Some "price_asc") 20 0).
  - intros lo hi E1 E2. injection E1 as <-. injection E2 as <-.
    discriminate.
  - reflexivity.
Defined.

(** C8.  When the product table is empty the statistics operation returns
    normally: the average, minimum and maximum price and the two extremal
    products are absent ([None]) and the out-of-stock count is 0; both
    product counts are 0 as well, and the store is unchanged. *)
Theorem statistics_of_empty_products :
  forall s : Session,
    products (db s) = [] ->
    exists (r : ProductsStatistics.t) (s' : Session),
      get_products_statistics s = (Return r, s')
      /\ db s' = db s
      /\ ProductsStatistics.average_price r = None
      /\ ProductsStatistics.min_price r = None
      /\ ProductsStatistics.max_price r = None
      /\ ProductsStatistics.most_expensive_product r = None
      /\ ProductsStatistics.cheapest_product r = None
      /\ ProductsStatistics.out_of_stock_count r = 0
      /\ ProductsStatistics.total_products r = 0
      /\ ProductsStatistics.in_stock_count r = 0.
Proof.
  intros [[cs ps] log] E. simpl in E. subst ps.
  unfold get_products_statistics.
  repeat (erewrite bind_run;
          [| first [apply scalar_run | apply first_run]]).
  unfold ret. simpl.
  eexists. eexists.
  split; [reflexivity |].
  repeat split; reflexivity.
Qed.

Lemma statistics_of_empty_products_witness :
  products (db empty_shop) = []
  /\ exists (r : ProductsStatistics.t) (s' : Session),
       get_products_statistics empty_shop = (Return r, s')
       /\ db s' = db empty_shop
       /\ ProductsStatistics.average_price r = None
       /\ ProductsStatistics.min_price r = None
       /\ ProductsStatistics.max_price r = None
       /\ ProductsStatistics.most_expensive_product r = None
       /\ ProductsStatistics.cheapest_product r = None
       /\ ProductsStatistics.out_of_stock_count r = 0
       /\ ProductsStatistics.total_products r = 0
       /\ ProductsStatistics.in_stock_count r = 0.
Proof.
  split; [reflexivity |].
  apply (statistics_of_empty_products empty_shop). reflexivity.
Defined.

(** *** The count operation *)

Lemma count_select (q : Query.t Product.t) (f : Product.t -> bool)
  (l : list Product.t) :
  unordered q -> (forall p, Query.selected q p = f p) ->
  Z.of_nat (List.length (Query.select q l)) = number_of f l.
Proof.
  intros U E. rewrite (select_unordered q l U).
  apply number_of_ext. exact E.
Qed.

(** The query that [get_products_count] builds selects the products that
    match its filter. *)
Lemma count_query_selected (category_id : option Z) (in_stock : option bool) :
  let q0 :=
    match category_id with
    | Some c =>
        Query.filter (session_query Product.t)
          (eq_col Z.eqb Product.category_id c)
    | None => session_query Product.t
    end in
  let q :=
    match in_stock with
    | Some b => Query.filter q0 (eq_col Bool.eqb Product.in_stock b)
    | None => q0
    end in
  unordered q
  /\ (forall p, Query.selected q p = matches_count category_id in_stock p)
  /\ (forall p,
        Query.selected
          (Query.filter q (eq_col Bool.eqb Product.in_stock true)) p
        = matches_count category_id in_stock p && is_in_stock p).
Proof.
  assert (S : forall q0 : Query.t Product.t, forall f,
             (forall p, Query.selected q0 p = f p) ->
             forall c p, Query.selected (Query.filter q0 c) p = f p && c p).
  { intros q0 f E c p. rewrite selected_filter, E. reflexivity. }
  destruct category_id as [c |], in_stock as [b |]; cbv zeta;
    (split; [repeat split |]);
    (split; intros p; unfold is_in_stock;
     rewrite ?selected_filter, ?selected_query;
     unfold matches_count, when; rewrite ?andb_true_l, ?andb_true_r;
     reflexivity).
Qed.

Lemma get_products_count_run (category_id : option Z)
  (in_stock : option bool) (s : Session) :
  known_category (db s) category_id ->
  let total :=
    number_of (matches_count category_id in_stock) (products (db s)) in
  let in_stock_count :=
    number_of (fun p => matches_count category_id in_stock p && is_in_stock p)
      (products (db s)) in
  exists s',
    get_products_count category_id in_stock s
    = (Return
         (ProductsCount.make total in_stock_count (total - in_stock_count)),
       s')
    /\ db s' = db s.
Proof.
  intros K total in_stock_count. subst total in_stock_count.
  destruct (count_query_selected category_id in_stock) as (U & E1 & E2).
  cbv zeta in U, E1, E2.
  unfold get_products_count.
  destruct category_id as [c |].
  - specialize (K c eq_refl).
    destruct (category_of (db s) c) as [cat |] eqn:Ec; [| congruence].
    unfold bind at 1. unfold bind at 1.
    rewrite category_exists_check_run, Ec.
    cbv beta iota. unfold ret at 1. cbv beta iota.
    unfold bind. rewrite !count_run. cbv beta iota. unfold ret.
    eexists. split.
    { rewrite (count_select _ _ _ U E1).
      rewrite (count_select _ _ _ (unordered_filter _ _ U) E2).
      reflexivity. }
    reflexivity.
  - unfold bind at 1. unfold ret at 1. cbv beta iota.
    unfold bind. rewrite !count_run. cbv beta iota. unfold ret.
    eexists. split.
    { rewrite (count_select _ _ _ U E1).
      rewrite (count_select _ _ _ (unordered_filter _ _ U) E2).
      reflexivity. }
    reflexivity.
Qed.



(** *** Deleting a category *)

Lemma find_key {R} (key : R -> Z) (k : Z) (l : list R) (r : R) :
  find (fun x => key x =? k) l = Some r -> key r = k.
Proof.
  intros F. apply find_some in F. destruct F as [_ E].
  apply Z.eqb_eq. exact E.
Qed.

Lemma find_remove_same {R} (key : R -> Z) (k : Z) (l : list R) :
  find (fun x => key x =? k) (List.filter (fun x => negb (key x =? k)) l)
  = None.
Proof.
  induction l as [| x l IH]; simpl; [reflexivity |].
  destruct (key x =? k) eqn:E; simpl; [exact IH |].
  rewrite E. exact IH.
Qed.

Lemma find_remove_other {R} (key : R -> Z) (k k' : Z) (l : list R) :
  k' <> k ->
  find (fun x => key x =? k') (List.filter (fun x => negb (key x =? k)) l)
  = find (fun x => key x =? k') l.
Proof.
  intros N. induction l as [| x l IH]; simpl; [reflexivity |].
  destruct (key x =? k) eqn:E; simpl.
  - apply Z.eqb_eq in E.
    destruct (key x =? k') eqn:E'; [| exact IH].
    apply Z.eqb_eq in E'. congruence.
  - rewrite IH. reflexivity.
Qed.

Lemma get_category_run (category_id : Z) (s : Session) :
  session_get Category.t category_id s
  = (Return (category_of (db s) category_id), after s (SELECT TCategory)).
Proof. rewrite get_run. reflexivity. Qed.

Lemma count_products_run (c : Category.t) (s : Session) :
  Query.count (Category_products c) s
  = (Return (linked_products (db s) c), after s (SELECT TProduct)).
Proof.
  rewrite count_run. unfold Category_products. rewrite select_one.
  reflexivity.
Qed.

(** C2.  For a stored category C: when no product is linked to C,
    [delete_category] returns normally, no category is stored under C's key
    afterwards, and the other categories and the products are untouched;
    when n >= 1 products are linked to C, it raises 400 (Invalid-Argument)
    with the message "Cannot delete category. n products are linked to
    this category", and the store, C included, is unchanged. *)
Theorem delete_category_guard :
  forall (s : Session) (category_id : Z) (c : Category.t),
    category_of (db s) category_id = Some c ->
    (linked_products (db s) c = 0 ->
     exists s' : Session,
       delete_category category_id s
       = (Return "Category deleted successfully", s')
       /\ category_of (db s') category_id = None
       /\ (forall k, k <> category_id ->
                     category_of (db s') k = category_of (db s) k)
       /\ products (db s') = products (db s))
    /\ (1 <= linked_products (db s) c ->
        exists s' : Session,
          delete_category category_id s
          = (Raise (mkHTTPException HTTP_400_BAD_REQUEST
                      ("Cannot delete category. "
                       ++ str_of_int (linked_products (db s) c)
                       ++ " products are linked to this category")), s')
          /\ db s' = db s
          /\ category_of (db s') category_id = Some c).
Proof.
  intros s category_id c F.
  assert (K : Category.id c = category_id)
    by exact (find_key Category.id category_id _ c F).
  assert (Run : delete_category category_id s
                = (let products := linked_products (db s) c in
                   if 0 <? products then
                     raise HTTP_400_BAD_REQUEST
                       ("Cannot delete category. " ++ str_of_int products
                        ++ " products are linked to this category")
                   else
                     delete_category_row c ;;
                     ret "Category deleted successfully")
                    (after (after s (SELECT TCategory)) (SELECT TProduct))).
  { unfold delete_category.
    rewrite (bind_run _ _ _ _ _ (get_category_run category_id s)), F.
    rewrite (bind_run _ _ _ _ _ (count_products_run c _)).
    reflexivity. }
  rewrite Run. cbv zeta. split.
  - intros Z0. rewrite Z0. simpl.
    eexists. split; [reflexivity |]. simpl.
    subst category_id.
    split; [exact (find_remove_same Category.id (Category.id c) _) |].
    split; [| reflexivity].
    intros k N.
    exact (find_remove_other Category.id (Category.id c) k _ N).
  - intros P.
    assert (T : (0 <? linked_products (db s) c) = true)
      by (apply Z.ltb_lt; lia).
    rewrite T. eexists. split; [reflexivity |].
    split; [reflexivity | exact F].
Qed.

Lemma delete_category_guard_witness :
  (exists s' : Session,
     delete_category 2 shop = (Return "Category deleted successfully", s')
     /\ category_of (db s') 2 = None
     /\ (forall k, k <> 2 -> category_of (db s') k = category_of (db shop) k)
     /\ products (db s') = products (db shop))
  /\ (exists s' : Session,
        delete_category 1 shop
        = (Raise
             (mkHTTPException HTTP_400_BAD_REQUEST
                ("Cannot delete category. 2 products are linked"
                 ++ " to this category")),
           s')
        /\ db s' = db shop
        /\ category_of (db s') 1 = Some electronics).
Proof.
  split.
  - exact (proj1 (delete_category_guard shop 2 books eq_refl) eq_refl).
  - refine (proj2 (delete_category_guard shop 1 electronics eq_refl) _).
    intros H. discriminate H.
Defined.

(** *** Updating a product *)

Lemma find_replace_same {R} (key : R -> Z) (r : R) (l : list R) :
  find (fun x => key x =? key r) l <> None ->
  find (fun x => key x =? key r)
    (map (fun x => if key x =? key r then r else x) l)
  = Some r.
Proof.
  induction l as [| x l IH]; simpl; [congruence |].
  destruct (key x =? key r) eqn:E; simpl.
  - intros _. rewrite Z.eqb_refl. reflexivity.
  - rewrite E. exact IH.
Qed.

Lemma find_replace_other {R} (key : R -> Z) (r : R) (k : Z) (l : list R) :
  k <> key r ->
  find (fun x => key x =? k)
    (map (fun x => if key x =? key r then r else x) l)
  = find (fun x => key x =? k) l.
Proof.
  intros N. induction l as [| x l IH]; simpl; [reflexivity |].
  destruct (key x =? key r) eqn:E; simpl.
  - apply Z.eqb_eq in E.
    assert (F1 : (key r =? k) = false) by (apply Z.eqb_neq; congruence).
    assert (F2 : (key x =? k) = false) by (apply Z.eqb_neq; congruence).
    rewrite F1, F2. exact IH.
  - rewrite IH. reflexivity.
Qed.

Lemma setattr_id (p : Product.t) (i : Item) :
  Product.id (setattr p i) = Product.id p.
Proof. destruct i; reflexivity. Qed.

Lemma setattr_all_id (items : list Item) (p : Product.t) :
  Product.id (fold_left setattr items p) = Product.id p.
Proof.
  revert p. induction items as [| i items IH]; intros p; simpl.
  - reflexivity.
  - rewrite IH. apply setattr_id.
Qed.

(** The loop over the items of the body leaves each attribute as
    [updated] says. *)
Lemma setattr_all_fields (u : ProductUpdateRequest.t) (p : Product.t) :
  let p' := fold_left setattr (ProductUpdateRequest.dict_exclude_unset u) p in
  updated (ProductUpdateRequest.name u) (Product.name p) (Product.name p')
  /\ updated (ProductUpdateRequest.description u)
       (Product.description p) (Product.description p')
  /\ updated (ProductUpdateRequest.price u) (Product.price p)
       (Product.price p')
  /\ updated (ProductUpdateRequest.in_stock u) (Product.in_stock p)
       (Product.in_stock p')
  /\ updated (ProductUpdateRequest.category_id u) (Product.category_id p)
       (Product.category_id p').
Proof.
  destruct u as [[| a] [| b] [| c] [| d] [| e]]; simpl;
    repeat split; reflexivity.
Qed.

Lemma update_product_run (product_id : Z) (u : ProductUpdateRequest.t)
  (s : Session) (p : Product.t) :
  product_of (db s) product_id = Some p ->
  update_product product_id u s
  = (Return (fold_left setattr (ProductUpdateRequest.dict_exclude_unset u) p),
     updated_session s
       (fold_left setattr (ProductUpdateRequest.dict_exclude_unset u) p)).
Proof.
  intros F. unfold update_product.
  erewrite bind_run.
  2:{ rewrite first_run, select_one, hd_error_filter. reflexivity. }
  change (find (fun p0 : Product.t => Product.id p0 =? product_id)
            (rows (db s))) with (product_of (db s) product_id).
  rewrite F. unfold commit_product, updated_session, bind; simpl.
  rewrite <- !app_assoc. reflexivity.
Qed.

Lemma update_product_raise (product_id : Z) (u : ProductUpdateRequest.t)
  (s : Session) :
  product_of (db s) product_id = None ->
  update_product product_id u s
  = (Raise (mkHTTPException HTTP_404_NOT_FOUND (product_not_found product_id)),
     after s (SELECT TProduct)).
Proof.
  intros F. unfold update_product.
  erewrite bind_run.
  2:{ rewrite first_run, select_one, hd_error_filter. reflexivity. }
  change (find (fun p0 : Product.t => Product.id p0 =? product_id)
            (rows (db s))) with (product_of (db s) product_id).
  rewrite F. reflexivity.
Qed.

Lemma product_of_updated (s : Session) (product_id : Z) (p p' : Product.t) :
  product_of (db s) product_id = Some p ->
  Product.id p' = Product.id p ->
  product_of (db (updated_session s p')) product_id = Some p'
  /\ (forall k, k <> product_id ->
        product_of (db (updated_session s p')) k = product_of (db s) k).
Proof.
  intros F I.
  assert (K : Product.id p' = product_id).
  { rewrite I. apply find_some in F. destruct F as [_ E].
    apply Z.eqb_eq. exact E. }
  subst product_id. unfold product_of, updated_session, replace; simpl.
  split.
  - apply (find_replace_same Product.id).
    unfold product_of in F. rewrite F. discriminate.
  - intros k N. apply (find_replace_other Product.id). exact N.
Qed.

(** C4.  For a stored product P and any body of a partial update,
    [update_product] returns the product stored under P's key afterwards;
    each attribute whose field is absent from the body keeps its prior
    value and each supplied field gives its value to the attribute; the
    key, the other products and the categories are untouched.  In
    particular the body [{price: 20}] leaves name, description,
    category_id and in_stock as they were and sets the price to 20. *)
Theorem update_product_frame :
  forall (s : Session) (product_id : Z) (p : Product.t)
         (updates : ProductUpdateRequest.t),
    product_of (db s) product_id = Some p ->
    exists (p' : Product.t) (s' : Session),
      update_product product_id updates s = (Return p', s')
      /\ product_of (db s') product_id = Some p'
      /\ Product.id p' = Product.id p
      /\ updated (ProductUpdateRequest.name updates)
           (Product.name p) (Product.name p')
      /\ updated (ProductUpdateRequest.description updates)
           (Product.description p) (Product.description p')
      /\ updated (ProductUpdateRequest.price updates)
           (Product.price p) (Product.price p')
      /\ updated (ProductUpdateRequest.in_stock updates)
           (Product.in_stock p) (Product.in_stock p')
      /\ updated (ProductUpdateRequest.category_id updates)
           (Product.category_id p) (Product.category_id p')
      /\ (forall k, k <> product_id ->
            product_of (db s') k = product_of (db s) k)
      /\ categories (db s') = categories (db s)
      /\ (updates = only_price_20 ->
          p' = Product.make (Product.id p) (Product.name p)
                 (Product.description p) (Some 20%Q) (Product.in_stock p)
                 (Product.category_id p)).
Proof.
  intros s product_id p updates F.
  pose (p' := fold_left setattr
                (ProductUpdateRequest.dict_exclude_unset updates) p).
  assert (I : Product.id p' = Product.id p) by apply setattr_all_id.
  destruct (product_of_updated s product_id p p' F I) as [Same Other].
  destruct (setattr_all_fields updates p) as (Hn & Hd & Hp & Hs & Hc).
  exists p', (updated_session s p').
  split; [exact (update_product_run product_id updates s p F) |].
  split; [exact Same |].
  split; [exact I |].
  split; [exact Hn |].
  split; [exact Hd |].
  split; [exact Hp |].
  split; [exact Hs |].
  split; [exact Hc |].
  split; [exact Other |].
  split; [reflexivity |].
  intros ->. reflexivity.
Qed.

(** C10.  For a stored product P, a partial update whose [category_id] is
    an id under which no category is stored returns normally: P is stored
    with that [category_id] and the category is still missing.  The run
    executes no statement on the category table, so nothing is checked
    against it; and every update of a stored product returns normally, a
    missing product being the only cause of failure. *)
Theorem update_product_dangling_category :
  forall (s : Session) (product_id : Z) (p : Product.t)
         (updates : ProductUpdateRequest.t) (c : Z),
    product_of (db s) product_id = Some p ->
    ProductUpdateRequest.category_id updates = Set_ (Some c) ->
    category_of (db s) c = None ->
    exists (p' : Product.t) (s' : Session) (added : list Stmt),
      update_product product_id updates s = (Return p', s')
      /\ product_of (db s') product_id = Some p'
      /\ Product.category_id p' = Some c
      /\ category_of (db s') c = None
      /\ executed s' = (executed s ++ added)%list
      /\ no_statement_on TCategory added
      /\ (forall u : ProductUpdateRequest.t,
            exists (r : Product.t) (s'' : Session),
              update_product product_id u s = (Return r, s'')).
Proof.
  intros s product_id p updates c F U N.
  pose (p' := fold_left setattr
                (ProductUpdateRequest.dict_exclude_unset updates) p).
  assert (I : Product.id p' = Product.id p) by apply setattr_all_id.
  destruct (product_of_updated s product_id p p' F I) as [Same _].
  destruct (setattr_all_fields updates p) as (_ & _ & _ & _ & Hc).
  rewrite U in Hc. simpl in Hc.
  exists p', (updated_session s p'),
    [SELECT TProduct; UPDATE TProduct; SELECT TProduct].
  split; [exact (update_product_run product_id updates s p F) |].
  split; [exact Same |].
  split; [exact Hc |].
  split; [exact N |].
  split; [reflexivity |].
  split.
  - intros st [E | [E | [E | []]]]; subst st; repeat split; discriminate.
  - intros u. eexists. eexists.
    exact (update_product_run product_id u s p F).
Qed.

Lemma update_product_frame_witness :
  product_of (db shop) 1 = Some phone
  /\ exists (p' : Product.t) (s' : Session),
       update_product 1 only_price_20 shop = (Return p', s')
       /\ product_of (db s') 1 = Some p'
       /\ p' = Product.make 1 (Some "Phone") (Some "A phone") (Some 20%Q)
                 (Some true) (Some 1).
Proof.
  split; [reflexivity |].
  destruct (update_product_frame shop 1 phone only_price_20 eq_refl)
    as (p' & s' & E & F & _ & _ & _ & _ & _ & _ & _ & _ & P).
  exists p', s'.
  split; [exact E |].
  split; [exact F |].
  exact (P eq_refl).
Defined.

Lemma update_product_dangling_category_witness :
  product_of (db shop) 1 = Some phone
  /\ category_of (db shop) 99 = None
  /\ exists (p' : Product.t) (s' : Session),
       update_product 1
         (ProductUpdateRequest.make Unset Unset Unset Unset (Set_ (Some 99)))
         shop
       = (Return p', s')
       /\ product_of (db s') 1 = Some p'
       /\ Product.category_id p' = Some 99
       /\ category_of (db s') 99 = None.
Proof.
  split; [reflexivity |].
  split; [reflexivity |].
  destruct (update_product_dangling_category shop 1 phone
              (ProductUpdateRequest.make Unset Unset Unset Unset
                 (Set_ (Some 99)))
              99 eq_refl eq_refl eq_refl)
    as (p' & s' & added & E & F & C & N & _).
  exists p', s'.
  split; [exact E |].
  split; [exact F |].
  split; [exact C | exact N].
Defined.

(** *** Creating a category *)

Lemma key_below_fresh {R} `{Mapped R} (l : list R) (x : R) :
  In x l -> primary_key x < fresh_id l.
Proof.
  unfold fresh_id.
  induction l as [| y l IH]; cbn [map fold_right In]; [intros [] |].
  intros [E | I].
  - subst y. lia.
  - specialize (IH I). lia.
Qed.

Lemma fresh_id_positive {R} `{Mapped R} (l : list R) : 1 <= fresh_id l.
Proof.
  unfold fresh_id. induction l as [| y l IH]; cbn [map fold_right]; lia.
Qed.

Lemma find_appended {R} (key : R -> Z) (l : list R) (r : R) :
  (forall x, In x l -> key x <> key r) ->
  find (fun x => key x =? key r) (l ++ [r]) = Some r.
Proof.
  induction l as [| y l IH]; simpl; intros N.
  - rewrite Z.eqb_refl. reflexivity.
  - assert (F : (key y =? key r) = false)
      by (apply Z.eqb_neq; apply N; left; reflexivity).
    rewrite F. apply IH. intros x I. apply N. right. exact I.
Qed.

Lemma no_such_name (n : string) (l : list Category.t) :
  (forall c, In c l -> Category.name c <> n) ->
  find (name_is (Some n)) l = None.
Proof.
  intros N. induction l as [| c l IH]; simpl; [reflexivity |].
  assert (F : (Category.name c =? n)%string = false)
    by (apply String.eqb_neq; apply N; left; reflexivity).
  rewrite F. apply IH. intros c0 I. apply N. right. exact I.
Qed.

Lemma create_category_run (data : CategoryCreate.t) (s : Session) :
  (forall c, In c (categories (db s)) ->
             Category.name c <> CategoryCreate.name data) ->
  let c := Category.make (fresh_id (categories (db s)))
             (CategoryCreate.name data) (CategoryCreate.description data) in
  create_category data s
  = (Return c,
     mkSession (mkDatabase (categories (db s) ++ [c]) (products (db s)))
       (executed s ++ [SELECT TCategory; INSERT TCategory; SELECT TCategory])).
Proof.
  intros N c. unfold create_category.
  erewrite bind_run.
  2:{ rewrite first_run, select_one, hd_error_filter. reflexivity. }
  change (rows (db s)) with (categories (db s)).
  rewrite (no_such_name _ _ N).
  unfold add_category, bind; simpl.
  rewrite <- !app_assoc. reflexivity.
Qed.

(** C9.  A valid create-category request whose name no stored category
    has returns normally a category with that name and description under
    a key that the server chose, positive and borne by no category stored
    before; [get_one_category] on that key then returns that very
    category. *)
Theorem create_category_then_get :
  forall (s : Session) (data : CategoryCreate.t),
    CategoryCreate.valid data = true ->
    (forall c, In c (categories (db s)) ->
               Category.name c <> CategoryCreate.name data) ->
    exists (c : Category.t) (s' : Session),
      create_category data s = (Return c, s')
      /\ Category.name c = CategoryCreate.name data
      /\ Category.description c = CategoryCreate.description data
      /\ 1 <= Category.id c
      /\ (forall c0, In c0 (categories (db s)) ->
                     Category.id c0 <> Category.id c)
      /\ exists s'' : Session,
           get_one_category (Category.id c) s' = (Return c, s'').
Proof.
  intros s data _ N.
  pose (c := Category.make (fresh_id (categories (db s)))
               (CategoryCreate.name data) (CategoryCreate.description data)).
  assert (Fresh : forall c0, In c0 (categories (db s)) ->
                             Category.id c0 <> Category.id c).
  { intros c0 I. pose proof (key_below_fresh _ c0 I) as L.
    simpl in L |- *. lia. }
  eexists c, _.
  split; [exact (create_category_run data s N) |].
  split; [reflexivity |].
  split; [reflexivity |].
  split; [exact (fresh_id_positive (categories (db s))) |].
  split; [exact Fresh |].
  eexists. unfold get_one_category.
  erewrite bind_run; [| apply get_run].
  change (find (fun r : Category.t => primary_key r =? Category.id c)
            (rows (db _)))
    with (find (fun x => Category.id x =? Category.id c)
            (categories (db s) ++ [c])).
  rewrite (find_appended Category.id _ c Fresh). reflexivity.
Qed.

Lemma create_category_then_get_witness :
  CategoryCreate.valid toys = true
  /\ exists (c : Category.t) (s' : Session),
       create_category toys shop = (Return c, s')
       /\ Category.name c = "Toys"
       /\ Category.description c = Some "For children"
       /\ exists s'' : Session,
            get_one_category (Category.id c) s' = (Return c, s'').
Proof.
  split; [reflexivity |].
  assert (N : forall c, In c (categories (db shop)) ->
                        Category.name c <> CategoryCreate.name toys).
  { intros c [E | [E | []]]; subst c; discriminate. }
  destruct (create_category_then_get shop toys eq_refl N)
    as (c & s' & E & Hn & Hd & _ & _ & G).
  exists c, s'.
  split; [exact E |].
  split; [exact Hn |].
  split; [exact Hd | exact G].
Defined.

(** *** Updating a category *)

(** The name check of [update_category] looks at every category, the one
    being updated included: resubmitting its current name is refused. *)
Lemma update_category_current_name (s : Session) (category_id : Z)
  (c : Category.t) (descr : option string) :
  category_of (db s) category_id = Some c ->
  update_category category_id
    (CategoryUpdate.make (Some (Category.name c)) descr) s
  = (Raise (mkHTTPException HTTP_400_BAD_REQUEST
              "Category with name 'Electronics' already exists"),
     after (after s (SELECT TCategory)) (SELECT TCategory)).
Proof.
  intros F. unfold update_category.
  rewrite (bind_run _ _ _ _ _ (get_category_run category_id s)), F.
  erewrite bind_run.
  2:{ rewrite first_run, select_one, hd_error_filter. reflexivity. }
  change (rows (db (after s (SELECT TCategory))))
    with (categories (db s)).
  cbn [CategoryUpdate.name].
  destruct (find (name_is (Some (Category.name c))) (categories (db s)))
    as [c' |] eqn:N; [reflexivity |].
  apply find_some in F. destruct F as [I _].
  pose proof (find_none _ _ N c I) as X. simpl in X.
  rewrite String.eqb_refl in X. discriminate X.
Qed.

(** C3.  The claim fails on the code.  In the sample shop "Electronics" is
    the name of category 1 and of no other category; updating category 1
    with its own name and a new description raises 400: the name check
    does not leave out the category being updated. *)
Theorem update_category_own_name_refused :
  category_of (db shop) 1 = Some electronics
  /\ map Category.id
       (List.filter (name_is (Some "Electronics")) (categories (db shop)))
     = [1]
  /\ update_category 1
       (CategoryUpdate.make (Some "Electronics") (Some "Gadgets")) shop
     = (Raise (mkHTTPException HTTP_400_BAD_REQUEST
                 "Category with name 'Electronics' already exists"),
        after (after shop (SELECT TCategory)) (SELECT TCategory)).
Proof.
  split; [reflexivity |].
  split; [reflexivity |].
  exact (update_category_current_name shop 1 electronics (Some "Gadgets")
           eq_refl).
Qed.

(** *** The advanced search *)

Lemma truthy_nonempty (n : string) :
  (1 <=? Z.of_nat (String.length n)) = true -> truthy_str n = true.
Proof. destruct n; [discriminate | reflexivity]. Qed.

Lemma truthy_positive (c : Z) :
  (0 <? c) = true -> truthy_opt_int (Some c) = true.
Proof.
  intros P. apply Z.ltb_lt in P. unfold truthy_opt_int.
  apply negb_true_iff. apply Z.eqb_neq. lia.
Qed.

(** The query that the advanced search builds from valid criteria selects
    the products that match them. *)
Lemma apply_filters_selected (name : option string) (category_id : option Z)
  (min_price max_price : option Q) (in_stock : option bool) :
  valid_filters name category_id min_price max_price = true ->
  let q := apply_filters name category_id min_price max_price in_stock
             (session_query Product.t) in
  unordered q
  /\ forall p, Query.selected q p
               = matches_filters name category_id min_price max_price
                   in_stock p.
Proof.
  unfold valid_filters. intros V.
  apply andb_true_iff in V. destruct V as [V _].
  apply andb_true_iff in V. destruct V as [V _].
  apply andb_true_iff in V. destruct V as [Vn Vc].
  unfold apply_filters.
  destruct name as [n |];
    [rewrite (truthy_nonempty n Vn) |];
    (destruct category_id as [c |];
     [rewrite (truthy_positive c Vc) |]);
    destruct min_price as [lo |], max_price as [hi |], in_stock as [b |];
    cbv zeta; (split; [repeat split |]);
    intros p; rewrite ?selected_filter, ?selected_query;
    unfold matches_filters, when; rewrite ?andb_true_l, ?andb_true_r;
    reflexivity.
Qed.

Lemma select_page (q : Query.t Product.t) (lim off : Z) (l : list Product.t) :
  0 <= lim ->
  Z.of_nat (List.length
              (Query.select (Query.limit (Query.offset q off) lim) l)) <= lim.
Proof.
  intros L.
  exact (paged_length (Some off) lim
           (ordered (Query.order q) (List.filter (Query.selected q) l)) L).
Qed.

Lemma advanced_search_run (s : Session) (name : option string)
  (category_id : option Z) (min_price max_price : option Q)
  (in_stock : option bool) (sort_by : option string) (limit offset : Z) :
  valid_filters name category_id min_price max_price = true ->
  consistent_bounds min_price max_price ->
  known_category (db s) category_id ->
  advanced_search_products name category_id min_price max_price in_stock
    sort_by limit offset s
  = (Return
       (Paginated.make
          (number_of
             (matches_filters name category_id min_price max_price in_stock)
             (products (db s)))
          limit offset
          (Query.select
             (Query.limit
                (Query.offset
                   (apply_sort sort_by
                      (apply_filters name category_id min_price max_price
                         in_stock (session_query Product.t)))
                   offset)
                limit)
             (products (db s)))),
     searched s category_id).
Proof.
  intros V C K.
  destruct (apply_filters_selected name category_id min_price max_price
              in_stock V) as [U E].
  cbv zeta in U, E.
  unfold advanced_search_products.
  rewrite (bind_run _ _ s s tt (price_range_check_pass _ _ s C)).
  assert (Check : (match category_id with
                   | Some c => category_exists_check c
                   | None => ret tt
                   end) s
                  = (Return tt,
                     match category_id with
                     | Some _ => after s (SELECT TCategory)
                     | None => s
                     end)).
  { destruct category_id as [c |]; [| reflexivity].
    rewrite category_exists_check_run.
    specialize (K c eq_refl).
    destruct (category_of (db s) c); [reflexivity | congruence]. }
  rewrite (bind_run _ _ _ _ _ Check).
  cbv zeta.
  erewrite bind_run; [| apply count_run].
  erewrite bind_run; [| apply all_run].
  unfold ret, searched.
  assert (D : rows (db match category_id with
                       | Some _ => after s (SELECT TCategory)
                       | None => s
                       end) = products (db s))
    by (destruct category_id; reflexivity).
  rewrite D. rewrite (select_unordered _ _ U).
  change (rows (db (after _ (SELECT table)))) with
    (rows (db match category_id with
              | Some _ => after s (SELECT TCategory)
              | None => s
              end)).
  rewrite D.
  unfold number_of. rewrite (filter_ext _ _ E). reflexivity.
Qed.

(** Every key that the [regex] of [sort_by] admits is one that the handler
    recognises: the query gets its ORDER BY. *)
Lemma apply_sort_valid (k : string) (q : Query.t Product.t) :
  valid_sort_by (Some k) = true ->
  exists o, apply_sort (Some k) q = Query.order_by q o.
Proof.
  unfold valid_sort_by, sort_keys; simpl. intros V.
  repeat (apply orb_true_iff in V; destruct V as [V | V]);
    try discriminate V;
    apply String.eqb_eq in V; subst k; eexists; reflexivity.
Qed.

(** The plain paginated listing: [total] counts every product and the
    page has at most [limit] items. *)
Lemma products_paginated_total (limit offset : Z) (s : Session) :
  0 <= limit ->
  exists (r : Paginated.t) (s' : Session),
    get_products_paginated limit offset s = (Return r, s')
    /\ db s' = db s
    /\ Paginated.total r = Z.of_nat (List.length (products (db s)))
    /\ Z.of_nat (List.length (Paginated.items r)) <= limit.
Proof.
  intros L. unfold get_products_paginated.
  erewrite bind_run; [| apply count_run].
  erewrite bind_run; [| apply all_run].
  eexists. eexists.
  split; [reflexivity |].
  split; [reflexivity |].
  split.
  - simpl. rewrite select_all. reflexivity.
  - simpl. apply select_page. exact L.
Qed.

(** ** Further properties of the handlers *)

(** *** The handlers that only read *)

Lemma reads_only_ret {A} (a : A) : reads_only (ret a).
Proof.
  intros s. split; [reflexivity |].
  exists []. split; [symmetry; apply app_nil_r | reflexivity].
Qed.

Lemma reads_only_raise {A} (code : Z) (msg : string) :
  reads_only (@raise A code msg).
Proof.
  intros s. split; [reflexivity |].
  exists []. split; [symmetry; apply app_nil_r | reflexivity].
Qed.

Lemma reads_only_bind {A B} (m : M A) (k : A -> M B) :
  reads_only m -> (forall a, reads_only (k a)) -> reads_only (bind m k).
Proof.
  intros Hm Hk s. unfold bind.
  destruct (Hm s) as (D1 & l1 & E1 & S1).
  destruct (m s) as [[a | e] s1]; simpl in D1, E1.
  - destruct (Hk a s1) as (D2 & l2 & E2 & S2).
    split; [congruence |].
    exists (l1 ++ l2)%list. split.
    + rewrite E2, E1. symmetry. apply app_assoc.
    + rewrite forallb_app, S1, S2. reflexivity.
  - simpl. split; [exact D1 |].
    exists l1. split; [exact E1 | exact S1].
Qed.

Lemma reads_only_select (t : Table) : reads_only (execute (SELECT t)).
Proof.
  intros s. split; [reflexivity |].
  exists [SELECT t]. split; reflexivity.
Qed.

Lemma reads_only_read : reads_only read.
Proof.
  intros s. split; [reflexivity |].
  exists []. split; [symmetry; apply app_nil_r | reflexivity].
Qed.

Section ReadingExecutors.
Context {R : Type} `{Mapped R}.

Lemma reads_only_all (q : Query.t R) : reads_only (Query.all q).
Proof.
  unfold Query.all.
  apply reads_only_bind; [apply reads_only_select | intros _].
  apply reads_only_bind; [apply reads_only_read | intros d].
  apply reads_only_ret.
Qed.

Lemma reads_only_first (q : Query.t R) : reads_only (Query.first q).
Proof.
  unfold Query.first.
  apply reads_only_bind; [apply reads_only_select | intros _].
  apply reads_only_bind; [apply reads_only_read | intros d].
  apply reads_only_ret.
Qed.

Lemma reads_only_count (q : Query.t R) : reads_only (Query.count q).
Proof.
  unfold Query.count.
  apply reads_only_bind; [apply reads_only_select | intros _].
  apply reads_only_bind; [apply reads_only_read | intros d].
  apply reads_only_ret.
Qed.

Lemma reads_only_scalar {A} (f : list R -> A) (q : Query.t R) :
  reads_only (Query.scalar f q).
Proof.
  unfold Query.scalar.
  apply reads_only_bind; [apply reads_only_select | intros _].
  apply reads_only_bind; [apply reads_only_read | intros d].
  apply reads_only_ret.
Qed.

Lemma reads_only_get (k : Z) : reads_only (session_get R k).
Proof. unfold session_get. apply reads_only_first. Qed.
End ReadingExecutors.

(** One step of the proof that a handler only reads. *)
Ltac reads_only_step :=
  first
    [ apply reads_only_ret
    | apply reads_only_raise
    | apply reads_only_all
    | apply reads_only_first
    | apply reads_only_count
    | apply reads_only_scalar
    | apply reads_only_get
    | apply reads_only_bind; [| intro]
    | match goal with
      | |- reads_only (match ?x with _ => _ end) => destruct x
      end ].

Ltac reads_only_auto := cbv zeta; repeat reads_only_step.

Lemma reads_only_price_range_check (min_price max_price : option Q) :
  reads_only (price_range_check min_price max_price).
Proof. unfold price_range_check. reads_only_auto. Qed.

Lemma reads_only_category_exists_check (c : Z) :
  reads_only (category_exists_check c).
Proof. unfold category_exists_check. reads_only_auto. Qed.

(** X1.  The thirteen handlers that answer a GET on categories or products
    never write: whatever their parameters, the session they start from
    and their outcome (a result or an HTTP error), the database is the
    same afterwards and every statement they have run is a SELECT. *)
Theorem get_handlers_read_only :
  reads_only get_categories
  /\ (forall k, reads_only (get_one_category k))
  /\ reads_only get_all_products
  /\ (forall k, reads_only (get_product_by_id k))
  /\ (forall name, reads_only (search_products name))
  /\ (forall lo hi, reads_only (filter_products_by_price lo hi))
  /\ (forall b, reads_only (filter_products_by_stock b))
  /\ (forall limit offset, reads_only (get_products_paginated limit offset))
  /\ (forall k, reads_only (get_products_by_category_id k))
  /\ (forall order, reads_only (sort_products_by_price order))
  /\ (forall name category_id lo hi in_stock sort_by limit offset,
        reads_only
          (advanced_search_products name category_id lo hi in_stock sort_by
             limit offset))
  /\ (forall category_id in_stock,
        reads_only (get_products_count category_id in_stock))
  /\ reads_only get_products_statistics.
Proof.
  repeat match goal with |- _ /\ _ => split end; intros.
  - unfold get_categories. reads_only_auto.
  - unfold get_one_category. reads_only_auto.
  - unfold get_all_products. reads_only_auto.
  - unfold get_product_by_id. reads_only_auto.
  - unfold search_products. reads_only_auto.
  - unfold filter_products_by_price.
    apply reads_only_bind; [apply reads_only_price_range_check | intro].
    reads_only_auto.
  - unfold filter_products_by_stock. reads_only_auto.
  - unfold get_products_paginated. reads_only_auto.
  - unfold get_products_by_category_id.
    apply reads_only_bind; [apply reads_only_category_exists_check | intro].
    reads_only_auto.
  - unfold sort_products_by_price. reads_only_auto.
  - unfold advanced_search_products.
    apply reads_only_bind; [apply reads_only_price_range_check | intro].
    apply reads_only_bind.
    { destruct category_id;
        [apply reads_only_category_exists_check | apply reads_only_ret]. }
    intro. reads_only_auto.
  - unfold get_products_count.
    apply reads_only_bind.
    { destruct category_id; [| apply reads_only_ret].
      apply reads_only_bind; [apply reads_only_category_exists_check | intro].
      apply reads_only_ret. }
    intro. reads_only_auto.
  - unfold get_products_statistics. reads_only_auto.
Qed.

(** *** Keys under which nothing is stored *)

Lemma get_product_run (product_id : Z) (s : Session) :
  Query.first (Query.filter (session_query Product.t)
                 (fun p => Product.id p =? product_id)) s
  = (Return (product_of (db s) product_id), after s (SELECT TProduct)).
Proof. rewrite first_run, select_one, hd_error_filter. reflexivity. Qed.

(** X2.  When no category is stored under a key, the five handlers that
    take a category key raise 404 (Not-Found) after the one lookup of the
    category, with the database as it was: [get_one_category],
    [update_category] whatever the body, [delete_category],
    [get_products_by_category_id] and [get_products_count]. *)
Theorem unknown_category_is_404 :
  forall (s : Session) (k : Z),
    category_of (db s) k = None ->
    get_one_category k s
    = (Raise (mkHTTPException HTTP_404_NOT_FOUND "Category not found."),
       after s (SELECT TCategory))
    /\ (forall data : CategoryUpdate.t,
          update_category k data s
          = (Raise (mkHTTPException HTTP_404_NOT_FOUND "Category not found"),
             after s (SELECT TCategory)))
    /\ delete_category k s
       = (Raise (mkHTTPException HTTP_404_NOT_FOUND "Category not found"),
          after s (SELECT TCategory))
    /\ get_products_by_category_id k s
       = (Raise (mkHTTPException HTTP_404_NOT_FOUND (category_not_found k)),
          after s (SELECT TCategory))
    /\ (forall in_stock : option bool,
          get_products_count (Some k) in_stock s
          = (Raise (mkHTTPException HTTP_404_NOT_FOUND
                      (category_not_found k)),
             after s (SELECT TCategory))).
Proof.
  intros s k N.
  assert (Check : category_exists_check k s
                  = (Raise (mkHTTPException HTTP_404_NOT_FOUND
                              (category_not_found k)),
                     after s (SELECT TCategory)))
    by (rewrite category_exists_check_run, N; reflexivity).
  split; [| split; [| split; [| split]]].
  - unfold get_one_category.
    rewrite (bind_run _ _ _ _ _ (get_category_run k s)), N. reflexivity.
  - intros data. unfold update_category.
    rewrite (bind_run _ _ _ _ _ (get_category_run k s)), N. reflexivity.
  - unfold delete_category.
    rewrite (bind_run _ _ _ _ _ (get_category_run k s)), N. reflexivity.
  - unfold get_products_by_category_id.
    apply bind_raise. exact Check.
  - intros in_stock. unfold get_products_count.
    apply bind_raise. apply bind_raise. exact Check.
Qed.

Lemma unknown_category_is_404_witness :
  category_of (db shop) 7 = None
  /\ get_one_category 7 shop
     = (Raise (mkHTTPException HTTP_404_NOT_FOUND "Category not found."),
        after shop (SELECT TCategory))
  /\ get_products_by_category_id 7 shop
     = (Raise (mkHTTPException HTTP_404_NOT_FOUND
                 "Category with id 7 not found"),
        after shop (SELECT TCategory)).
Proof.
  split; [reflexivity |].
  destruct (unknown_category_is_404 shop 7 eq_refl) as (G & _ & _ & P & _).
  split; [exact G | exact P].
Defined.

(** X3.  When no product is stored under a key, [get_product_by_id],
    [update_product] whatever the body and [delete_product] raise 404
    with the message "Product with id <key> not found", after the one
    lookup of the product and with the database as it was. *)
Theorem unknown_product_is_404 :
  forall (s : Session) (k : Z),
    product_of (db s) k = None ->
    get_product_by_id k s
    = (Raise (mkHTTPException HTTP_404_NOT_FOUND (product_not_found k)),
       after s (SELECT TProduct))
    /\ (forall updates : ProductUpdateRequest.t,
          update_product k updates s
          = (Raise (mkHTTPException HTTP_404_NOT_FOUND (product_not_found k)),
             after s (SELECT TProduct)))
    /\ delete_product k s
       = (Raise (mkHTTPException HTTP_404_NOT_FOUND (product_not_found k)),
          after s (SELECT TProduct)).
Proof.
  intros s k N.
  split; [| split].
  - unfold get_product_by_id.
    rewrite (bind_run _ _ _ _ _ (get_product_run k s)), N. reflexivity.
  - intros updates. exact (update_product_raise k updates s N).
  - unfold delete_product.
    rewrite (bind_run _ _ _ _ _ (get_product_run k s)), N. reflexivity.
Qed.

Lemma unknown_product_is_404_witness :
  product_of (db shop) 9 = None
  /\ get_product_by_id 9 shop
     = (Raise (mkHTTPException HTTP_404_NOT_FOUND
                 "Product with id 9 not found"),
        after shop (SELECT TProduct))
  /\ delete_product 9 shop
     = (Raise (mkHTTPException HTTP_404_NOT_FOUND
                 "Product with id 9 not found"),
        after shop (SELECT TProduct)).
Proof.
  split; [reflexivity |].
  destruct (unknown_product_is_404 shop 9 eq_refl) as (G & _ & D).
  split; [exact G | exact D].
Defined.

(** *** Creating a category, again *)

Lemma some_such_name (n : string) (l : list Category.t) (c : Category.t) :
  In c l -> Category.name c = n -> find (name_is (Some n)) l <> None.
Proof.
  intros I E N. pose proof (find_none _ _ N c I) as X. simpl in X.
  rewrite E, String.eqb_refl in X. discriminate X.
Qed.

Lemma create_category_refused (data : CategoryCreate.t) (s : Session)
  (c : Category.t) :
  In c (categories (db s)) ->
  Category.name c = CategoryCreate.name data ->
  create_category data s
  = (Raise (mkHTTPException HTTP_400_BAD_REQUEST
              "Category with this name already exists"),
     after s (SELECT TCategory)).
Proof.
  intros I E. unfold create_category.
  erewrite bind_run.
  2:{ rewrite first_run, select_one, hd_error_filter. reflexivity. }
  change (rows (db s)) with (categories (db s)).
  pose proof (some_such_name _ _ c I E) as X.
  destruct (find (name_is (Some (CategoryCreate.name data)))
              (categories (db s))); [reflexivity | congruence].
Qed.

Lemma find_app_some {A} (f : A -> bool) (l l' : list A) (a : A) :
  find f l = Some a -> find f (l ++ l') = Some a.
Proof.
  induction l as [| x l IH]; simpl; [discriminate |].
  destruct (f x); [trivial | exact IH].
Qed.

(** X4.  Creating a category under a name that a stored category already
    has raises 400 (Invalid-Argument) after the one lookup by name, and
    the database is as it was; the description of the request plays no
    part. *)
Theorem create_category_duplicate_name :
  forall (s : Session) (data : CategoryCreate.t) (c : Category.t),
    In c (categories (db s)) ->
    Category.name c = CategoryCreate.name data ->
    exists s' : Session,
      create_category data s
      = (Raise (mkHTTPException HTTP_400_BAD_REQUEST
                  "Category with this name already exists"), s')
      /\ db s' = db s
      /\ executed s' = (executed s ++ [SELECT TCategory])%list.
Proof.
  intros s data c I E.
  exists (after s (SELECT TCategory)).
  split; [exact (create_category_refused data s c I E) |].
  split; reflexivity.
Qed.

Lemma create_category_duplicate_name_witness :
  In electronics (categories (db shop))
  /\ exists s' : Session,
       create_category (CategoryCreate.make "Electronics" None) shop
       = (Raise (mkHTTPException HTTP_400_BAD_REQUEST
                   "Category with this name already exists"), s')
       /\ db s' = db shop
       /\ executed s' = (executed shop ++ [SELECT TCategory])%list.
Proof.
  assert (I : In electronics (categories (db shop)))
    by (left; reflexivity).
  split; [exact I |].
  exact (create_category_duplicate_name shop
           (CategoryCreate.make "Electronics" None) electronics I eq_refl).
Defined.

(** X5.  A successful create adds one category and touches nothing else:
    every category stored before is still the one stored under its key,
    the products are as they were, and creating again under the same
    name, with any description, is then refused with 400. *)
Theorem create_category_once :
  forall (s : Session) (data : CategoryCreate.t),
    (forall c, In c (categories (db s)) ->
               Category.name c <> CategoryCreate.name data) ->
    exists (c : Category.t) (s' : Session),
      create_category data s = (Return c, s')
      /\ categories (db s') = (categories (db s) ++ [c])%list
      /\ (forall k c0, category_of (db s) k = Some c0 ->
                       category_of (db s') k = Some c0)
      /\ products (db s') = products (db s)
      /\ forall again : CategoryCreate.t,
           CategoryCreate.name again = CategoryCreate.name data ->
           create_category again s'
           = (Raise (mkHTTPException HTTP_400_BAD_REQUEST
                       "Category with this name already exists"),
              after s' (SELECT TCategory)).
Proof.
  intros s data N.
  eexists. eexists.
  split; [exact (create_category_run data s N) |].
  split; [reflexivity |].
  split; [| split; [reflexivity |]].
  - intros k c0 F. unfold category_of. simpl.
    apply find_app_some. exact F.
  - intros again E.
    apply (create_category_refused again _
             (Category.make (fresh_id (categories (db s)))
                (CategoryCreate.name data)
                (CategoryCreate.description data))).
    + simpl. apply in_or_app. right. left. reflexivity.
    + simpl. symmetry. exact E.
Qed.

Lemma create_category_once_witness :
  exists (c : Category.t) (s' : Session),
    create_category toys shop = (Return c, s')
    /\ categories (db s') = (categories (db shop) ++ [c])%list
    /\ products (db s') = products (db shop)
    /\ create_category (CategoryCreate.make "Toys" None) s'
       = (Raise (mkHTTPException HTTP_400_BAD_REQUEST
                   "Category with this name already exists"),
          after s' (SELECT TCategory)).
Proof.
  assert (N : forall c, In c (categories (db shop)) ->
                        Category.name c <> CategoryCreate.name toys).
  { intros c [E | [E | []]]; subst c; discriminate. }
  destruct (create_category_once shop toys N) as (c & s' & E & C & _ & P & A).
  exists c, s'.
  split; [exact E |].
  split; [exact C |].
  split; [exact P |].
  exact (A (CategoryCreate.make "Toys" None) eq_refl).
Defined.

(** *** Updating a category, again *)

Lemma update_category_run (k : Z) (data : CategoryUpdate.t) (s : Session)
  (c : Category.t) :
  category_of (db s) k = Some c ->
  find (name_is (CategoryUpdate.name data)) (categories (db s)) = None ->
  let c' := Category.make (Category.id c)
              (or_prior (CategoryUpdate.name data) (Category.name c))
              (or_prior_opt (CategoryUpdate.description data)
                 (Category.description c)) in
  update_category k data s = (Return c', updated_category_session s c').
Proof.
  intros F N c'. unfold update_category.
  rewrite (bind_run _ _ _ _ _ (get_category_run k s)), F.
  erewrite bind_run.
  2:{ rewrite first_run, select_one, hd_error_filter. reflexivity. }
  change (rows (db (after s (SELECT TCategory))))
    with (categories (db s)).
  rewrite N.
  unfold commit_category, updated_category_session, bind; simpl.
  rewrite <- !app_assoc. reflexivity.
Qed.

Lemma update_category_refused (k : Z) (data : CategoryUpdate.t) (s : Session)
  (c : Category.t) :
  category_of (db s) k = Some c ->
  find (name_is (CategoryUpdate.name data)) (categories (db s)) <> None ->
  update_category k data s
  = (Raise (mkHTTPException HTTP_400_BAD_REQUEST
              "Category with name 'Electronics' already exists"),
     after (after s (SELECT TCategory)) (SELECT TCategory)).
Proof.
  intros F N. unfold update_category.
  rewrite (bind_run _ _ _ _ _ (get_category_run k s)), F.
  erewrite bind_run.
  2:{ rewrite first_run, select_one, hd_error_filter. reflexivity. }
  change (rows (db (after s (SELECT TCategory))))
    with (categories (db s)).
  destruct (find (name_is (CategoryUpdate.name data)) (categories (db s)));
    [reflexivity | congruence].
Qed.

Lemma name_is_free (v : option string) (l : list Category.t) :
  (forall n, v = Some n -> forall c, In c l -> Category.name c <> n) ->
  find (name_is v) l = None.
Proof.
  intros N. destruct v as [n |].
  - apply no_such_name. exact (N n eq_refl).
  - clear N. induction l as [| c l IH]; simpl; [reflexivity | exact IH].
Qed.

Lemma category_of_updated (s : Session) (k : Z) (c c' : Category.t) :
  category_of (db s) k = Some c ->
  Category.id c' = Category.id c ->
  category_of (db (updated_category_session s c')) k = Some c'
  /\ (forall j, j <> k ->
        category_of (db (updated_category_session s c')) j
        = category_of (db s) j).
Proof.
  intros F I.
  assert (K : Category.id c' = k)
    by (rewrite I; exact (find_key Category.id k _ c F)).
  subst k. unfold category_of, updated_category_session, replace; simpl.
  split.
  - apply (find_replace_same Category.id).
    unfold category_of in F. rewrite F. discriminate.
  - intros j N. apply (find_replace_other Category.id). exact N.
Qed.

(** X6.  Updating a stored category with a body whose name, if any, no
    stored category has, returns the category now stored under the key:
    the key is kept; the name is that of the body when it is there and
    not empty, the prior one otherwise; so is the description, which
    therefore neither an absent nor an empty description can clear; the
    other categories and the products are untouched. *)
Theorem update_category_applies :
  forall (s : Session) (k : Z) (c : Category.t) (data : CategoryUpdate.t),
    category_of (db s) k = Some c ->
    (forall n, CategoryUpdate.name data = Some n ->
               forall c0, In c0 (categories (db s)) ->
                          Category.name c0 <> n) ->
    exists (c' : Category.t) (s' : Session),
      update_category k data s = (Return c', s')
      /\ category_of (db s') k = Some c'
      /\ Category.id c' = Category.id c
      /\ (forall n, CategoryUpdate.name data = Some n -> n <> EmptyString ->
                    Category.name c' = n)
      /\ (CategoryUpdate.name data = None
          \/ CategoryUpdate.name data = Some EmptyString ->
          Category.name c' = Category.name c)
      /\ (forall d, CategoryUpdate.description data = Some d ->
                    d <> EmptyString ->
                    Category.description c' = Some d)
      /\ (CategoryUpdate.description data = None
          \/ CategoryUpdate.description data = Some EmptyString ->
          Category.description c' = Category.description c)
      /\ (forall j, j <> k -> category_of (db s') j = category_of (db s) j)
      /\ products (db s') = products (db s).
Proof.
  intros s k c data F N.
  pose (c' := Category.make (Category.id c)
                (or_prior (CategoryUpdate.name data) (Category.name c))
                (or_prior_opt (CategoryUpdate.description data)
                   (Category.description c))).
  destruct (category_of_updated s k c c' F eq_refl) as [Same Other].
  exists c', (updated_category_session s c').
  split; [exact (update_category_run k data s c F (name_is_free _ _ N)) |].
  split; [exact Same |].
  split; [reflexivity |].
  split; [| split; [| split; [| split; [| split; [exact Other |]]]]].
  - intros n E Hn. simpl. rewrite E. simpl.
    destruct n; [congruence | reflexivity].
  - intros [E | E]; simpl; rewrite E; reflexivity.
  - intros d E Hd. simpl. unfold or_prior_opt. rewrite E. simpl.
    destruct d; [congruence | reflexivity].
  - intros [E | E]; simpl; unfold or_prior_opt; rewrite E; reflexivity.
  - reflexivity.
Qed.

Lemma update_category_applies_witness :
  category_of (db shop) 2 = Some books
  /\ exists (c' : Category.t) (s' : Session),
       update_category 2 (CategoryUpdate.make (Some "Novels") (Some "")) shop
       = (Return c', s')
       /\ category_of (db s') 2 = Some c'
       /\ Category.name c' = "Novels"
       /\ Category.description c' = Category.description books.
Proof.
  split; [reflexivity |].
  assert (N : forall n,
             CategoryUpdate.name
               (CategoryUpdate.make (Some "Novels") (Some "")) = Some n ->
             forall c0, In c0 (categories (db shop)) ->
                        Category.name c0 <> n).
  { intros n E c0 I. injection E as <-.
    destruct I as [I | [I | []]]; subst c0; discriminate. }
  destruct (update_category_applies shop 2 books
              (CategoryUpdate.make (Some "Novels") (Some "")) eq_refl N)
    as (c' & s' & E & F & _ & Hn & _ & _ & Hd & _).
  exists c', s'.
  split; [exact E |].
  split; [exact F |].
  split; [apply (Hn "Novels" eq_refl); discriminate |].
  apply Hd. right. reflexivity.
Defined.

(** X7.  Updating a stored category with a name that some stored category
    has, the updated one included, raises 400 and leaves the database as
    it was; the detail of the error is the fixed text that names
    'Electronics', whatever the name of the request. *)
Theorem update_category_name_taken :
  forall (s : Session) (k : Z) (c c0 : Category.t) (n : string)
         (descr : option string),
    category_of (db s) k = Some c ->
    In c0 (categories (db s)) ->
    Category.name c0 = n ->
    exists s' : Session,
      update_category k (CategoryUpdate.make (Some n) descr) s
      = (Raise (mkHTTPException HTTP_400_BAD_REQUEST
                  "Category with name 'Electronics' already exists"), s')
      /\ db s' = db s.
Proof.
  intros s k c c0 n descr F I E.
  exists (after (after s (SELECT TCategory)) (SELECT TCategory)).
  split; [| reflexivity].
  apply (update_category_refused k _ s c F).
  exact (some_such_name n _ c0 I E).
Qed.

Lemma update_category_name_taken_witness :
  category_of (db shop) 1 = Some electronics
  /\ In books (categories (db shop))
  /\ exists s' : Session,
       update_category 1 (CategoryUpdate.make (Some "Books") None) shop
       = (Raise (mkHTTPException HTTP_400_BAD_REQUEST
                   "Category with name 'Electronics' already exists"), s')
       /\ db s' = db shop.
Proof.
  assert (I : In books (categories (db shop)))
    by (right; left; reflexivity).
  split; [reflexivity |].
  split; [exact I |].
  exact (update_category_name_taken shop 1 electronics books "Books" None
           eq_refl I eq_refl).
Defined.

(** *** Products: delete, update and read back *)

Lemma get_product_by_id_run (k : Z) (s : Session) :
  get_product_by_id k s
  = (match product_of (db s) k with
     | Some p => Return p
     | None =>
         Raise (mkHTTPException HTTP_404_NOT_FOUND (product_not_found k))
     end, after s (SELECT TProduct)).
Proof.
  unfold get_product_by_id.
  rewrite (bind_run _ _ _ _ _ (get_product_run k s)).
  destruct (product_of (db s) k); reflexivity.
Qed.

Lemma delete_product_run (k : Z) (s : Session) (p : Product.t) :
  product_of (db s) k = Some p ->
  delete_product k s
  = (Return "Product o'chirildi",
     mkSession (mkDatabase (categories (db s)) (remove p (products (db s))))
       (executed s ++ [SELECT TProduct; DELETE TProduct])).
Proof.
  intros F. unfold delete_product.
  rewrite (bind_run _ _ _ _ _ (get_product_run k s)), F.
  unfold delete_product_row, bind; simpl.
  rewrite <- !app_assoc. reflexivity.
Qed.

(** X8.  Deleting a stored product is unconditional: it returns normally,
    nothing is stored under the key afterwards, the other products and
    the categories are untouched; reading or deleting that key again
    raises 404. *)
Theorem delete_product_removes :
  forall (s : Session) (k : Z) (p : Product.t),
    product_of (db s) k = Some p ->
    exists s' : Session,
      delete_product k s = (Return "Product o'chirildi", s')
      /\ product_of (db s') k = None
      /\ (forall j, j <> k -> product_of (db s') j = product_of (db s) j)
      /\ categories (db s') = categories (db s)
      /\ fst (get_product_by_id k s')
         = Raise (mkHTTPException HTTP_404_NOT_FOUND (product_not_found k))
      /\ fst (delete_product k s')
         = Raise (mkHTTPException HTTP_404_NOT_FOUND (product_not_found k)).
Proof.
  intros s k p F.
  assert (K : Product.id p = k) by exact (find_key Product.id k _ p F).
  eexists.
  split; [exact (delete_product_run k s p F) |].
  assert (Gone : product_of
                   (mkDatabase (categories (db s))
                      (remove p (products (db s)))) k = None).
  { subst k. exact (find_remove_same Product.id (Product.id p) _). }
  split; [exact Gone |].
  split; [| split; [reflexivity | split]].
  - intros j N. subst k.
    exact (find_remove_other Product.id (Product.id p) j _ N).
  - rewrite get_product_by_id_run. simpl. rewrite Gone. reflexivity.
  - unfold delete_product.
    erewrite bind_run; [| apply get_product_run].
    simpl. rewrite Gone. reflexivity.
Qed.

Lemma delete_product_removes_witness :
  product_of (db shop) 1 = Some phone
  /\ exists s' : Session,
       delete_product 1 shop = (Return "Product o'chirildi", s')
       /\ product_of (db s') 1 = None
       /\ product_of (db s') 2 = Some laptop
       /\ fst (get_product_by_id 1 s')
          = Raise (mkHTTPException HTTP_404_NOT_FOUND
                     "Product with id 1 not found").
Proof.
  split; [reflexivity |].
  destruct (delete_product_removes shop 1 phone eq_refl)
    as (s' & E & G & O & _ & R & _).
  exists s'.
  split; [exact E |].
  split; [exact G |].
  split; [rewrite (O 2); [reflexivity | discriminate] | exact R].
Defined.

Lemma setattr_all_idem (u : ProductUpdateRequest.t) (p : Product.t) :
  let items := ProductUpdateRequest.dict_exclude_unset u in
  fold_left setattr items (fold_left setattr items p)
  = fold_left setattr items p.
Proof.
  destruct u as [[| a] [| b] [| c] [| d] [| e]]; reflexivity.
Qed.

Lemma replace_idem {R} `{Mapped R} (r : R) (l : list R) :
  replace r (replace r l) = replace r l.
Proof.
  unfold replace. rewrite map_map. apply map_ext. intros x.
  destruct (primary_key x =? primary_key r) eqn:E.
  - rewrite Z.eqb_refl. reflexivity.
  - rewrite E. reflexivity.
Qed.

(** X9.  A partial update of a stored product can be read back and
    repeated: [get_product_by_id] then returns the very product that the
    update returned, and sending the same body again returns the same
    product and leaves the database as the first update left it. *)
Theorem update_product_read_back :
  forall (s : Session) (k : Z) (p : Product.t)
         (updates : ProductUpdateRequest.t),
    product_of (db s) k = Some p ->
    exists (p' : Product.t) (s' : Session),
      update_product k updates s = (Return p', s')
      /\ fst (get_product_by_id k s') = Return p'
      /\ exists s'' : Session,
           update_product k updates s' = (Return p', s'')
           /\ db s'' = db s'.
Proof.
  intros s k p updates F.
  pose (p' := fold_left setattr
                (ProductUpdateRequest.dict_exclude_unset updates) p).
  assert (I : Product.id p' = Product.id p) by apply setattr_all_id.
  assert (Idem : fold_left setattr
                   (ProductUpdateRequest.dict_exclude_unset updates) p'
                 = p') by apply setattr_all_idem.
  pose proof (update_product_run k updates s p F) as Run.
  fold p' in Run. clearbody p'.
  destruct (product_of_updated s k p p' F I) as [Same _].
  exists p', (updated_session s p').
  split; [exact Run |].
  split; [rewrite get_product_by_id_run, Same; reflexivity |].
  exists (updated_session (updated_session s p') p').
  split.
  - rewrite (update_product_run k updates _ p' Same), Idem. reflexivity.
  - unfold updated_session; simpl. rewrite replace_idem. reflexivity.
Qed.

Lemma update_product_read_back_witness :
  product_of (db shop) 1 = Some phone
  /\ exists (p' : Product.t) (s' : Session),
       update_product 1 only_price_20 shop = (Return p', s')
       /\ fst (get_product_by_id 1 s') = Return p'
       /\ exists s'' : Session,
            update_product 1 only_price_20 s' = (Return p', s'')
            /\ db s'' = db s'.
Proof.
  split; [reflexivity |].
  exact (update_product_read_back shop 1 phone only_price_20 eq_refl).
Defined.

(** *** What a write can do to the database *)

Lemma create_category_effect (data : CategoryCreate.t) (s : Session) :
  db (snd (create_category data s)) = db s
  \/ (forall c, In c (categories (db s)) ->
                Category.name c <> CategoryCreate.name data)
     /\ db (snd (create_category data s))
        = mkDatabase
            (categories (db s)
             ++ [Category.make (fresh_id (categories (db s)))
                   (CategoryCreate.name data)
                   (CategoryCreate.description data)])
            (products (db s)).
Proof.
  destruct (find (name_is (Some (CategoryCreate.name data)))
              (categories (db s))) as [c |] eqn:F.
  - left. apply find_some in F. destruct F as [I E].
    apply String.eqb_eq in E.
    rewrite (create_category_refused data s c I E). reflexivity.
  - right.
    assert (N : forall c, In c (categories (db s)) ->
                          Category.name c <> CategoryCreate.name data).
    { intros c I. apply String.eqb_neq. exact (find_none _ _ F c I). }
    split; [exact N |].
    rewrite (create_category_run data s N). reflexivity.
Qed.

Lemma update_category_effect (k : Z) (data : CategoryUpdate.t) (s : Session) :
  db (snd (update_category k data s)) = db s
  \/ exists c c' : Category.t,
       category_of (db s) k = Some c
       /\ Category.id c' = Category.id c
       /\ (Category.name c' = Category.name c
           \/ forall c0, In c0 (categories (db s)) ->
                         Category.name c0 <> Category.name c')
       /\ db (snd (update_category k data s))
          = mkDatabase (replace c' (categories (db s))) (products (db s)).
Proof.
  destruct (category_of (db s) k) as [c |] eqn:F.
  - destruct (find (name_is (CategoryUpdate.name data)) (categories (db s)))
      as [c0 |] eqn:N.
    + left. rewrite (update_category_refused k data s c F); [reflexivity |].
      rewrite N. discriminate.
    + right. exists c. eexists.
      split; [reflexivity |].
      split; [| split; [| rewrite (update_category_run k data s c F N);
                          reflexivity]].
      * reflexivity.
      * simpl. destruct (CategoryUpdate.name data) as [n |]; simpl;
          [| left; reflexivity].
        destruct (truthy_str n); [| left; reflexivity].
        right. intros c0 I. apply String.eqb_neq.
        exact (find_none _ _ N c0 I).
  - left. unfold update_category.
    rewrite (bind_run _ _ _ _ _ (get_category_run k s)), F. reflexivity.
Qed.

Lemma delete_category_effect (k : Z) (s : Session) :
  db (snd (delete_category k s)) = db s
  \/ exists c : Category.t,
       db (snd (delete_category k s))
       = mkDatabase (remove c (categories (db s))) (products (db s)).
Proof.
  unfold delete_category.
  rewrite (bind_run _ _ _ _ _ (get_category_run k s)).
  destruct (category_of (db s) k) as [c |]; [| left; reflexivity].
  rewrite (bind_run _ _ _ _ _ (count_products_run c _)).
  destruct (0 <? linked_products (db (after s (SELECT TCategory))) c);
    [left; reflexivity |].
  right. exists c. reflexivity.
Qed.

Lemma update_product_effect (k : Z) (u : ProductUpdateRequest.t)
  (s : Session) :
  db (snd (update_product k u s)) = db s
  \/ exists p' : Product.t,
       db (snd (update_product k u s))
       = mkDatabase (categories (db s)) (replace p' (products (db s))).
Proof.
  destruct (product_of (db s) k) as [p |] eqn:F.
  - right. eexists. rewrite (update_product_run k u s p F). reflexivity.
  - left. rewrite (update_product_raise k u s F). reflexivity.
Qed.

Lemma delete_product_effect (k : Z) (s : Session) :
  db (snd (delete_product k s)) = db s
  \/ exists p : Product.t,
       db (snd (delete_product k s))
       = mkDatabase (categories (db s)) (remove p (products (db s))).
Proof.
  destruct (product_of (db s) k) as [p |] eqn:F.
  - right. exists p. rewrite (delete_product_run k s p F). reflexivity.
  - left. unfold delete_product.
    rewrite (bind_run _ _ _ _ _ (get_product_run k s)), F. reflexivity.
Qed.

(** *** The invariants of the store *)

Section Keys.
Context {R : Type} `{Mapped R}.

Lemma keys_replace (r : R) (l : list R) :
  map primary_key (replace r l) = map primary_key l.
Proof.
  unfold replace. rewrite map_map. apply map_ext_in. intros x _.
  destruct (primary_key x =? primary_key r) eqn:E; [| reflexivity].
  apply Z.eqb_eq in E. symmetry. exact E.
Qed.

Lemma keys_remove (r : R) (l : list R) :
  NoDup (map primary_key l) -> NoDup (map primary_key (remove r l)).
Proof.
  unfold remove. induction l as [| x l IH]; simpl; intros N;
    [constructor |].
  inversion N as [| k ks Nin Nl]; subst.
  destruct (negb (primary_key x =? primary_key r)); simpl.
  - constructor; [| exact (IH Nl)].
    intros I. apply Nin. apply in_map_iff in I.
    destruct I as (y & E & Iy). apply filter_In in Iy.
    apply in_map_iff. exists y. split; [exact E | apply Iy].
  - exact (IH Nl).
Qed.

Lemma keys_insert (l : list R) (r : R) :
  NoDup (map primary_key l) ->
  primary_key r = fresh_id l ->
  NoDup (map primary_key (l ++ [r])).
Proof.
  intros N E. rewrite map_app. simpl.
  apply NoDup_app; [exact N | repeat constructor; intros [] |].
  intros a I [Ia | []]. subst a. apply in_map_iff in I.
  destruct I as (y & Ey & Iy).
  pose proof (key_below_fresh l y Iy) as L. lia.
Qed.
End Keys.

(** X10.  The five handlers that write keep the keys of each table
    distinct: started from a database where no two categories and no two
    products share a key, [create_category], [update_category],
    [delete_category], [update_product] and [delete_product] end, whatever
    their parameters and their outcome, in such a database. *)
Theorem writes_keep_unique_keys :
  forall s : Session,
    unique_keys (db s) ->
    (forall data, unique_keys (db (snd (create_category data s))))
    /\ (forall k data, unique_keys (db (snd (update_category k data s))))
    /\ (forall k, unique_keys (db (snd (delete_category k s))))
    /\ (forall k updates, unique_keys (db (snd (update_product k updates s))))
    /\ (forall k, unique_keys (db (snd (delete_product k s)))).
Proof.
  intros s [Kc Kp].
  split; [| split; [| split; [| split]]].
  - intros data.
    destruct (create_category_effect data s) as [E | [_ E]]; rewrite E;
      [split; assumption |].
    split; [| exact Kp]. simpl.
    exact (keys_insert (categories (db s))
             (Category.make (fresh_id (categories (db s)))
                (CategoryCreate.name data)
                (CategoryCreate.description data))
             Kc eq_refl).
  - intros k data.
    destruct (update_category_effect k data s)
      as [E | (c & c' & _ & _ & _ & E)]; rewrite E; [split; assumption |].
    split; [| exact Kp]. simpl.
    change (NoDup (map primary_key (replace c' (categories (db s))))).
    rewrite keys_replace. exact Kc.
  - intros k.
    destruct (delete_category_effect k s) as [E | (c & E)]; rewrite E;
      [split; assumption |].
    split; [| exact Kp]. simpl.
    exact (keys_remove c (categories (db s)) Kc).
  - intros k updates.
    destruct (update_product_effect k updates s) as [E | (p' & E)];
      rewrite E; [split; assumption |].
    split; [exact Kc |]. simpl.
    change (NoDup (map primary_key (replace p' (products (db s))))).
    rewrite keys_replace. exact Kp.
  - intros k.
    destruct (delete_product_effect k s) as [E | (p & E)]; rewrite E;
      [split; assumption |].
    split; [exact Kc |]. simpl.
    exact (keys_remove p (products (db s)) Kp).
Qed.

Lemma writes_keep_unique_keys_witness :
  unique_keys (db shop)
  /\ unique_keys (db (snd (create_category toys shop)))
  /\ unique_keys (db (snd (delete_product 1 shop))).
Proof.
  assert (U : unique_keys (db shop)).
  { split; simpl; repeat constructor; simpl; intuition discriminate. }
  split; [exact U |].
  destruct (writes_keep_unique_keys shop U) as (C & _ & _ & _ & D).
  split; [exact (C toys) | exact (D 1)].
Defined.

Lemma NoDup_map_filter {A B} (f : A -> B) (g : A -> bool) (l : list A) :
  NoDup (map f l) -> NoDup (map f (List.filter g l)).
Proof.
  induction l as [| x l IH]; simpl; intros N; [constructor |].
  inversion N as [| k ks Nin Nl]; subst.
  destruct (g x); simpl; [| exact (IH Nl)].
  constructor; [| exact (IH Nl)].
  intros I. apply Nin. apply in_map_iff in I.
  destruct I as (y & E & Iy). apply filter_In in Iy.
  apply in_map_iff. exists y. split; [exact E | apply Iy].
Qed.

Lemma NoDup_map_eq {A B} (f : A -> B) (l : list A) (x y : A) :
  NoDup (map f l) -> In x l -> In y l -> f x = f y -> x = y.
Proof.
  induction l as [| a l IH]; simpl; intros N Ix Iy E; [contradiction |].
  inversion N as [| k ks Nin Nl]; subst.
  destruct Ix as [Ix | Ix], Iy as [Iy | Iy]; subst.
  - reflexivity.
  - exfalso. apply Nin. rewrite E. apply in_map. exact Iy.
  - exfalso. apply Nin. rewrite <- E. apply in_map. exact Ix.
  - exact (IH Nl Ix Iy E).
Qed.

Lemma replace_absent (r : Category.t) (l : list Category.t) :
  (forall x, In x l -> Category.id x <> Category.id r) -> replace r l = l.
Proof.
  intros N. unfold replace.
  rewrite <- (map_id l) at 2. apply map_ext_in. intros x I.
  assert (F : (primary_key x =? primary_key r) = false)
    by (apply Z.eqb_neq; exact (N x I)).
  rewrite F. reflexivity.
Qed.

Lemma in_replace (r x : Category.t) (l : list Category.t) :
  In x (replace r l) -> x = r \/ In x l.
Proof.
  unfold replace. intros I. apply in_map_iff in I.
  destruct I as (y & E & Iy).
  destruct (primary_key y =? primary_key r);
    [left; symmetry; exact E | right; subst; exact Iy].
Qed.

Lemma names_replace (r : Category.t) (l : list Category.t) :
  NoDup (map Category.id l) ->
  NoDup (map Category.name l) ->
  (forall x, In x l -> Category.id x <> Category.id r ->
             Category.name x <> Category.name r) ->
  NoDup (map Category.name (replace r l)).
Proof.
  induction l as [| a l IH]; intros Ki Kn D; [constructor |].
  inversion Ki as [| i ks Iin Il]; subst.
  inversion Kn as [| n ns Nin Nl]; subst.
  change (replace r (a :: l))
    with ((if Category.id a =? Category.id r then r else a) :: replace r l).
  destruct (Category.id a =? Category.id r) eqn:E.
  - apply Z.eqb_eq in E.
    assert (A : forall x, In x l -> Category.id x <> Category.id r).
    { intros x I Ex. apply Iin. rewrite E, <- Ex. apply in_map. exact I. }
    rewrite (replace_absent r l A). simpl. constructor; [| exact Nl].
    intros I. apply in_map_iff in I. destruct I as (y & Ey & Iy).
    apply (D y (or_intror Iy) (A y Iy)). exact Ey.
  - apply Z.eqb_neq in E. simpl. constructor.
    + intros I. apply in_map_iff in I. destruct I as (y & Ey & Iy).
      apply in_replace in Iy. destruct Iy as [Iy | Iy].
      * subst y. apply (D a (or_introl eq_refl) E). symmetry. exact Ey.
      * apply Nin. rewrite <- Ey. apply in_map. exact Iy.
    + apply (IH Il Nl). intros x I. apply D. right. exact I.
Qed.

(** X11.  The three handlers that write categories keep the category
    names distinct: started from a database with distinct keys and
    distinct category names, [create_category], [update_category] and
    [delete_category] end, whatever their parameters and their outcome,
    in a database with distinct category names. *)
Theorem writes_keep_unique_names :
  forall s : Session,
    unique_keys (db s) ->
    unique_names (db s) ->
    (forall data, unique_names (db (snd (create_category data s))))
    /\ (forall k data, unique_names (db (snd (update_category k data s))))
    /\ (forall k, unique_names (db (snd (delete_category k s)))).
Proof.
  intros s [Kc _] Kn. unfold unique_names in *.
  split; [| split].
  - intros data.
    destruct (create_category_effect data s) as [E | [N E]]; rewrite E;
      [exact Kn |].
    simpl. rewrite map_app. simpl.
    apply NoDup_app; [exact Kn | repeat constructor; intros [] |].
    intros n I [In' | []]. subst n. apply in_map_iff in I.
    destruct I as (y & Ey & Iy). exact (N y Iy Ey).
  - intros k data.
    destruct (update_category_effect k data s)
      as [E | (c & c' & F & I & Hn & E)]; rewrite E; [exact Kn |].
    simpl. apply (names_replace c' _ Kc Kn).
    intros x Ix Dx. destruct Hn as [Hn | Hn]; [| exact (Hn x Ix)].
    rewrite Hn. intros Ex. apply Dx. rewrite I.
    apply find_some in F. destruct F as [Ic _].
    f_equal. exact (NoDup_map_eq Category.name _ x c Kn Ix Ic Ex).
  - intros k.
    destruct (delete_category_effect k s) as [E | (c & E)]; rewrite E;
      [exact Kn |].
    simpl. exact (NoDup_map_filter Category.name _ _ Kn).
Qed.

Lemma writes_keep_unique_names_witness :
  unique_keys (db shop)
  /\ unique_names (db shop)
  /\ unique_names (db (snd (create_category toys shop)))
  /\ unique_names
       (db (snd (update_category 2
                   (CategoryUpdate.make (Some "Novels") None) shop))).
Proof.
  assert (U : unique_keys (db shop)).
  { split; simpl; repeat constructor; simpl; intuition discriminate. }
  assert (N : unique_names (db shop)).
  { unfold unique_names; simpl; repeat constructor; simpl;
      intuition discriminate. }
  split; [exact U |].
  split; [exact N |].
  destruct (writes_keep_unique_names shop U N) as (C & P & _).
  split; [exact (C toys) |].
  exact (P 2 (CategoryUpdate.make (Some "Novels") None)).
Defined.

(** *** The listings by one criterion *)

Lemma all_where_run (c : Product.t -> bool) (s : Session) :
  Query.all (Query.filter (session_query Product.t) c) s
  = (Return (List.filter c (products (db s))), after s (SELECT TProduct)).
Proof. rewrite all_run, select_one. reflexivity. Qed.

Lemma filter_products_by_price_run (min_price max_price : option Q)
  (s : Session) :
  consistent_bounds min_price max_price ->
  filter_products_by_price min_price max_price s
  = (Return
       (List.filter (matches_filters None None min_price max_price None)
          (products (db s))),
     after s (SELECT TProduct)).
Proof.
  intros C. unfold filter_products_by_price.
  rewrite (bind_run _ _ s s tt (price_range_check_pass _ _ s C)).
  cbv zeta. rewrite all_run.
  rewrite select_unordered
    by (destruct min_price, max_price; repeat split).
  f_equal. f_equal. apply filter_ext. intros p.
  destruct min_price, max_price;
    rewrite ?selected_filter, ?selected_query;
    unfold matches_filters, when; rewrite ?andb_true_l, ?andb_true_r;
    reflexivity.
Qed.

Lemma price_within_spec (min_price max_price : option Q) (p : Product.t) :
  matches_filters None None min_price max_price None p = true
  <-> price_within min_price max_price p.
Proof.
  unfold matches_filters, price_within, when, ge_col, le_col.
  rewrite !andb_true_l, andb_true_r.
  destruct min_price as [lo |], max_price as [hi |];
    rewrite ?andb_true_l, ?andb_true_r.
  - destruct (Product.price p) as [x |].
    + rewrite andb_true_iff, !Qle_bool_iff. split.
      * intros [L H]. exists x. split; [reflexivity |].
        split; intros ? E; injection E as <-; assumption.
      * intros (y & E & L & H). injection E as <-.
        split; [exact (L lo eq_refl) | exact (H hi eq_refl)].
    + split; [discriminate |]. intros (y & E & _). discriminate E.
  - destruct (Product.price p) as [x |].
    + rewrite Qle_bool_iff. split.
      * intros L. exists x. split; [reflexivity |].
        split; intros ? E; [injection E as <-; assumption | discriminate E].
      * intros (y & E & L & _). injection E as <-. exact (L lo eq_refl).
    + split; [discriminate |]. intros (y & E & _). discriminate E.
  - destruct (Product.price p) as [x |].
    + rewrite Qle_bool_iff. split.
      * intros H. exists x. split; [reflexivity |].
        split; intros ? E; [discriminate E | injection E as <-; assumption].
      * intros (y & E & _ & H). injection E as <-. exact (H hi eq_refl).
    + split; [discriminate |]. intros (y & E & _). discriminate E.
  - split; trivial.
Qed.

(** X12.  The price listing: with [min_price > max_price] it raises 400
    and runs no statement; otherwise it returns, in table order and
    without touching the store, exactly the stored products whose price
    is within the bounds.  A product that has no price is listed only
    when no bound is given. *)
Theorem filter_products_by_price_lists :
  forall (s : Session) (min_price max_price : option Q),
    (forall lo hi, min_price = Some lo -> max_price = Some hi ->
                   (lo > hi)%Q ->
                   filter_products_by_price min_price max_price s
                   = (Raise (mkHTTPException HTTP_400_BAD_REQUEST
                               "min_price cannot be greater than max_price"),
                      s))
    /\ (consistent_bounds min_price max_price ->
        exists (items : list Product.t) (s' : Session),
          filter_products_by_price min_price max_price s = (Return items, s')
          /\ db s' = db s
          /\ items
             = List.filter
                 (matches_filters None None min_price max_price None)
                 (products (db s))
          /\ forall p, In p items
                       <-> In p (products (db s))
                           /\ price_within min_price max_price p).
Proof.
  intros s min_price max_price. split.
  - intros lo hi -> -> L. unfold filter_products_by_price.
    apply bind_raise. apply price_range_check_raise. exact L.
  - intros C. eexists. eexists.
    split; [exact (filter_products_by_price_run _ _ s C) |].
    split; [reflexivity |].
    split; [reflexivity |].
    intros p. rewrite filter_In, price_within_spec. reflexivity.
Qed.

Lemma filter_products_by_price_lists_witness :
  consistent_bounds (Some 5%Q) (Some 20%Q)
  /\ exists s' : Session,
       filter_products_by_price (Some 5%Q) (Some 20%Q) shop
       = (Return [phone], s')
       /\ db s' = db shop.
Proof.
  assert (C : consistent_bounds (Some 5%Q) (Some 20%Q)).
  { intros lo hi E1 E2. injection E1 as <-. injection E2 as <-.
    discriminate. }
  split; [exact C |].
  destruct (proj2 (filter_products_by_price_lists shop (Some 5%Q)
                     (Some 20%Q)) C)
    as (items & s' & E & D & I & _).
  exists s'. split; [| exact D].
  rewrite E, I. reflexivity.
Defined.

(** X13.  The stock listing and the listing of a stored category return,
    in table order and without touching the store, exactly the stored
    products whose stock flag, or whose [category_id], is the one asked
    for; a product whose stock flag is null is in neither stock
    listing. *)
Theorem listings_by_equality :
  forall (s : Session),
    (forall b : bool,
       exists items : list Product.t,
         filter_products_by_stock b s
         = (Return items, after s (SELECT TProduct))
         /\ forall p, In p items
                      <-> In p (products (db s))
                          /\ Product.in_stock p = Some b)
    /\ (forall (k : Z) (c : Category.t),
          category_of (db s) k = Some c ->
          exists items : list Product.t,
            get_products_by_category_id k s
            = (Return items,
               after (after s (SELECT TCategory)) (SELECT TProduct))
            /\ forall p, In p items
                         <-> In p (products (db s))
                             /\ Product.category_id p = Some k).
Proof.
  intros s. split.
  - intros b. eexists.
    split; [exact (all_where_run _ s) |].
    intros p. rewrite filter_In. unfold eq_col.
    destruct (Product.in_stock p) as [x |].
    + rewrite Bool.eqb_true_iff. split; intros [I E]; (split; [exact I |]);
        congruence.
    + split; intros [_ E]; discriminate E.
  - intros k c F. eexists. split.
    + unfold get_products_by_category_id.
      erewrite bind_run;
        [| rewrite category_exists_check_run, F; reflexivity].
      exact (all_where_run _ _).
    + intros p. simpl. rewrite filter_In. unfold eq_col.
      destruct (Product.category_id p) as [x |].
      * rewrite Z.eqb_eq. split; intros [I E]; (split; [exact I |]);
          congruence.
      * split; intros [_ E]; discriminate E.
Qed.

Lemma listings_by_equality_witness :
  category_of (db shop) 1 = Some electronics
  /\ exists items : list Product.t,
       get_products_by_category_id 1 shop
       = (Return items,
          after (after shop (SELECT TCategory)) (SELECT TProduct))
       /\ In laptop items.
Proof.
  split; [reflexivity |].
  destruct (proj2 (listings_by_equality shop) 1 electronics eq_refl)
    as (items & E & I).
  exists items. split; [exact E |].
  apply I. split; [right; left; reflexivity | reflexivity].
Defined.

(** *** Searching by name *)

Lemma like_any (pat s : string) :
  like (String "%" pat) s
  = like pat s
    || match s with
       | EmptyString => false
       | String _ s' => like (String "%" pat) s'
       end.
Proof. destruct s; reflexivity. Qed.

Lemma like_char (c : ascii) (pat s : string) :
  Ascii.eqb c "%"%char = false ->
  Ascii.eqb c "_"%char = false ->
  like (String c pat) s
  = match s with
    | EmptyString => false
    | String d s' => Ascii.eqb (lower c) (lower d) && like pat s'
    end.
Proof.
  intros E1 E2. destruct s as [| d s']; simpl; rewrite E1; [reflexivity |].
  rewrite E2. reflexivity.
Qed.

Lemma like_any_all (s : string) : like "%" s = true.
Proof.
  induction s as [| d s IH]; [reflexivity |].
  rewrite like_any, IH. apply orb_true_r.
Qed.

Lemma like_any_split (pat s : string) :
  like (String "%" pat) s = true
  <-> exists a b : string, s = (a ++ b)%string /\ like pat b = true.
Proof.
  induction s as [| d s IH]; rewrite like_any.
  - rewrite orb_false_r. split.
    + intros L. exists EmptyString, EmptyString. split; [reflexivity | exact L].
    + intros (a & b & E & L). destruct a; simpl in E; [| discriminate E].
      subst b. exact L.
  - rewrite orb_true_iff, IH. split.
    + intros [L | (a & b & E & L)].
      * exists EmptyString, (String d s). split; [reflexivity | exact L].
      * exists (String d a), b.
        split; [simpl; rewrite E; reflexivity | exact L].
    + intros (a & b & E & L). destruct a as [| c a]; simpl in E.
      * left. subst b. exact L.
      * right. injection E as _ E. exists a, b. split; [exact E | exact L].
Qed.

Lemma like_plain_split (n pat s : string) :
  plain n = true ->
  like (n ++ pat) s = true
  <-> exists m b : string,
        s = (m ++ b)%string /\ fold_case m = fold_case n
        /\ like pat b = true.
Proof.
  revert s. induction n as [| c n IH]; intros s P.
  - simpl. split.
    + intros L. exists EmptyString, s. repeat split; assumption.
    + intros (m & b & E & F & L). destruct m; [| discriminate F].
      simpl in E. subst b. exact L.
  - simpl in P. apply andb_true_iff in P. destruct P as [P Pn].
    apply andb_true_iff in P. destruct P as [P1 P2].
    apply negb_true_iff in P1. apply negb_true_iff in P2.
    change (String c n ++ pat)%string with (String c (n ++ pat)).
    rewrite (like_char c _ s P1 P2).
    destruct s as [| d s].
    + split; [discriminate |].
      intros (m & b & E & F & _). destruct m; [discriminate F |].
      discriminate E.
    + rewrite andb_true_iff, Ascii.eqb_eq, (IH s Pn). split.
      * intros [Ec (m & b & E & F & L)].
        exists (String d m), b. simpl. rewrite E, F, Ec.
        repeat split. exact L.
      * intros (m & b & E & F & L). destruct m as [| d' m];
          [discriminate F |].
        simpl in E, F. injection E as -> E. injection F as Ec F.
        split; [symmetry; exact Ec |].
        exists m, b. repeat split; assumption.
Qed.

(** For a plain term the pattern of the search matches the names that
    contain the term, whatever the case. *)
Lemma like_contains (n x : string) :
  plain n = true ->
  like (contains_pattern n) x = true <-> contains_ci x n.
Proof.
  intros P. unfold contains_pattern, contains_ci.
  change ("%" ++ n ++ "%")%string with (String "%" (n ++ "%")).
  rewrite like_any_split. split.
  - intros (a & b & E & L).
    apply (like_plain_split n "%" b P) in L.
    destruct L as (m & b' & E' & F & _).
    exists a, m, b'. subst. split; [reflexivity | exact F].
  - intros (a & m & b & E & F).
    exists a, (m ++ b)%string. split; [exact E |].
    apply (like_plain_split n "%" _ P).
    exists m, b. split; [reflexivity |].
    split; [exact F | apply like_any_all].
Qed.

Lemma search_products_run (name : option string) (s : Session) :
  search_products name s
  = (Return
       (if truthy_opt_str name
        then List.filter (matches_filters name None None None None)
               (products (db s))
        else products (db s)),
     after s (SELECT TProduct)).
Proof.
  unfold search_products. cbv zeta.
  destruct name as [n |]; simpl.
  - destruct (truthy_str n).
    + rewrite all_where_run. f_equal. f_equal. apply filter_ext.
      intros p. unfold matches_filters, when.
      rewrite !andb_true_r. reflexivity.
    + rewrite all_run, select_all. reflexivity.
  - rewrite all_run, select_all. reflexivity.
Qed.

Lemma matches_name (n : string) (p : Product.t) :
  matches_filters (Some n) None None None None p
  = ilike Product.name (contains_pattern n) p.
Proof. unfold matches_filters, when. rewrite !andb_true_r. reflexivity. Qed.

(** X14.  The search by name never touches the store and: without a term,
    or with the empty term, it returns every stored product, those
    without a name included; with a term it returns only products that
    have a name; with a plain term (no [%], no [_]) it returns, in table
    order, exactly the products whose name contains the term whatever
    the case of the ASCII letters; with the term [%] it returns every
    product that has a name. *)
Theorem search_products_finds :
  forall (s : Session) (name : option string),
    exists items : list Product.t,
      search_products name s = (Return items, after s (SELECT TProduct))
      /\ (name = None \/ name = Some EmptyString ->
          items = products (db s))
      /\ (forall n, name = Some n -> n <> EmptyString ->
                    forall p, In p items ->
                              In p (products (db s))
                              /\ Product.name p <> None)
      /\ (forall n, name = Some n -> n <> EmptyString -> plain n = true ->
                    forall p, In p items
                              <-> In p (products (db s))
                                  /\ exists x, Product.name p = Some x
                                               /\ contains_ci x n)
      /\ (name = Some "%"%string ->
          forall p, In p items
                    <-> In p (products (db s)) /\ Product.name p <> None).
Proof.
  intros s name. eexists.
  split; [exact (search_products_run name s) |].
  split; [| split; [| split]].
  - intros [-> | ->]; reflexivity.
  - intros n -> Hn p. destruct n as [| c n]; [congruence |].
    change (truthy_opt_str (Some (String c n))) with true. cbv iota.
    rewrite filter_In, matches_name. unfold ilike. intros [I L].
    split; [exact I |]. destruct (Product.name p); [discriminate |].
    discriminate L.
  - intros n -> Hn P p. destruct n as [| c n]; [congruence |].
    change (truthy_opt_str (Some (String c n))) with true. cbv iota.
    rewrite filter_In, matches_name. unfold ilike.
    destruct (Product.name p) as [x |].
    + rewrite (like_contains _ x P). split.
      * intros [I C]. split; [exact I |]. exists x. split; [reflexivity |].
        exact C.
      * intros [I (y & E & C)]. injection E as <-. split; assumption.
    + split; [intros [_ L]; discriminate L |].
      intros [_ (y & E & _)]. discriminate E.
  - intros -> p.
    change (truthy_opt_str (Some "%"%string)) with true. cbv iota.
    rewrite filter_In, matches_name. unfold ilike.
    destruct (Product.name p) as [x |].
    + change (like (contains_pattern "%") x)
        with (like (String "%" (String "%" "%")) x).
      assert (L : like (String "%" (String "%" "%")) x = true).
      { apply like_any_split. exists EmptyString, x.
        split; [reflexivity |].
        apply like_any_split. exists EmptyString, x.
        split; [reflexivity | apply like_any_all]. }
      rewrite L. split; intros [I _]; (split; [exact I |]);
        [discriminate | reflexivity].
    + split; [intros [_ L]; discriminate L | intros [_ N]; congruence].
Qed.

Lemma search_products_finds_witness :
  plain "PHO" = true
  /\ exists items : list Product.t,
       search_products (Some "PHO"%string) shop
       = (Return items, after shop (SELECT TProduct))
       /\ In phone items.
Proof.
  split; [reflexivity |].
  destruct (search_products_finds shop (Some "PHO"%string))
    as (items & E & _ & _ & P & _).
  assert (Hn : "PHO"%string <> EmptyString) by discriminate.
  exists items. split; [exact E |].
  apply (P "PHO"%string eq_refl Hn eq_refl).
  split; [left; reflexivity |].
  exists "Phone"%string. split; [reflexivity |].
  exists EmptyString, "Pho"%string, "ne"%string.
  split; reflexivity.
Defined.

(** *** Pages *)

Lemma firstn_tile {A} (a b : nat) (l : list A) :
  (firstn a l ++ firstn b (skipn a l))%list = firstn (a + b) l.
Proof.
  revert l. induction a as [| a IH]; intros l; [reflexivity |].
  destruct l as [| x l]; simpl.
  - rewrite firstn_nil. reflexivity.
  - rewrite IH. reflexivity.
Qed.

Lemma select_window {R} (lim off : Z) (l : list R) :
  Query.select (Query.limit (Query.offset (session_query R) off) lim) l
  = firstn (Z.to_nat lim) (skipn (Z.to_nat off) l).
Proof.
  change (Query.select
            (Query.limit (Query.offset (session_query R) off) lim) l)
    with (paged (Some off) (Some lim) (Query.select (session_query R) l)).
  rewrite select_all. reflexivity.
Qed.

Lemma get_products_paginated_run (limit offset : Z) (s : Session) :
  get_products_paginated limit offset s
  = (Return
       (Paginated.make (Z.of_nat (List.length (products (db s))))
          limit offset
          (firstn (Z.to_nat limit) (skipn (Z.to_nat offset)
                                      (products (db s))))),
     after (after s (SELECT TProduct)) (SELECT TProduct)).
Proof.
  unfold get_products_paginated.
  erewrite bind_run; [| apply count_run].
  erewrite bind_run; [| apply all_run].
  unfold ret. simpl. rewrite select_all, select_window. reflexivity.
Qed.

(** X15.  Consecutive pages of the paginated listing tile the table: the
    page of [limit] products at [offset] followed by the page of [limit']
    products at [offset + limit], asked for next, is the page of
    [limit + limit'] products at [offset]; nothing is skipped and nothing
    comes twice, and [total] is the same in all of them. *)
Theorem paginated_pages_tile :
  forall (s : Session) (limit limit' offset : Z),
    0 <= limit -> 0 <= limit' -> 0 <= offset ->
    exists (r1 r2 r : Paginated.t) (s1 s2 s3 : Session),
      get_products_paginated limit offset s = (Return r1, s1)
      /\ get_products_paginated limit' (offset + limit) s1 = (Return r2, s2)
      /\ get_products_paginated (limit + limit') offset s = (Return r, s3)
      /\ (Paginated.items r1 ++ Paginated.items r2)%list = Paginated.items r
      /\ Paginated.total r1 = Paginated.total r
      /\ Paginated.total r2 = Paginated.total r.
Proof.
  intros s limit limit' offset L L' O.
  do 6 eexists.
  split; [apply get_products_paginated_run |].
  split; [apply get_products_paginated_run |].
  split; [apply get_products_paginated_run |].
  split; [| split; reflexivity].
  simpl.
  replace (Z.to_nat (offset + limit))
    with (Z.to_nat limit + Z.to_nat offset)%nat by lia.
  rewrite <- skipn_skipn, firstn_tile.
  replace (Z.to_nat (limit + limit'))
    with (Z.to_nat limit + Z.to_nat limit')%nat by lia.
  reflexivity.
Qed.

Lemma paginated_pages_tile_witness :
  exists (r1 r2 r : Paginated.t) (s1 s2 s3 : Session),
    get_products_paginated 1 0 shop = (Return r1, s1)
    /\ get_products_paginated 1 (0 + 1) s1 = (Return r2, s2)
    /\ get_products_paginated (1 + 1) 0 shop = (Return r, s3)
    /\ (Paginated.items r1 ++ Paginated.items r2)%list = Paginated.items r
    /\ Paginated.total r1 = Paginated.total r
    /\ Paginated.total r2 = Paginated.total r.
Proof.
  apply (paginated_pages_tile shop 1 1 0); discriminate.
Defined.

(** X16.  The paginated listing returns [min(limit, max(0, total -
    offset))] products: none when [offset] is at or past the end, all of
    them when [offset] is 0 and [limit] is at least [total]. *)
Theorem paginated_page_size :
  forall (s : Session) (limit offset : Z),
    0 <= limit -> 0 <= offset ->
    exists (r : Paginated.t) (s' : Session),
      get_products_paginated limit offset s = (Return r, s')
      /\ Z.of_nat (List.length (Paginated.items r))
         = Z.min limit (Z.max 0 (Paginated.total r - offset))
      /\ (Paginated.total r <= offset -> Paginated.items r = [])
      /\ (offset = 0 -> Paginated.total r <= limit ->
          Paginated.items r = products (db s)).
Proof.
  intros s limit offset L O.
  eexists. eexists.
  split; [apply get_products_paginated_run |].
  simpl. split; [| split].
  - rewrite length_firstn, length_skipn. lia.
  - intros T. rewrite skipn_all2 by lia. apply firstn_nil.
  - intros -> T. simpl. apply firstn_all2. lia.
Qed.

Lemma paginated_page_size_witness :
  exists (r : Paginated.t) (s' : Session),
    get_products_paginated 10 1 shop = (Return r, s')
    /\ Z.of_nat (List.length (Paginated.items r))
       = Z.min 10 (Z.max 0 (Paginated.total r - 1)).
Proof.
  destruct (paginated_page_size shop 10 1) as (r & s' & E & N & _);
    [discriminate | discriminate |].
  exists r, s'. split; [exact E | exact N].
Defined.

(** *** Sorting *)

Section Sorting.
Context {R : Type} (le : R -> R -> bool).
Hypothesis le_total : forall a b, le a b = true \/ le b a = true.
Hypothesis le_trans :
  forall a b c, le a b = true -> le b c = true -> le a c = true.

Lemma insert_by_perm (x : R) (l : list R) :
  Permutation (insert_by le x l) (x :: l).
Proof.
  induction l as [| y l IH]; simpl; [apply Permutation_refl |].
  destruct (le x y); [apply Permutation_refl |].
  apply perm_trans with (y :: x :: l);
    [apply perm_skip; exact IH | apply perm_swap].
Qed.

Lemma sort_by_key_perm (l : list R) : Permutation (sort_by_key le l) l.
Proof.
  unfold sort_by_key. induction l as [| x l IH]; simpl; [constructor |].
  apply perm_trans with (x :: fold_right (insert_by le) [] l);
    [apply insert_by_perm | apply perm_skip; exact IH].
Qed.

Lemma insert_by_sorted (x : R) (l : list R) :
  StronglySorted (fun a b => le a b = true) l ->
  StronglySorted (fun a b => le a b = true) (insert_by le x l).
Proof.
  induction l as [| y l IH]; simpl; intros S.
  - constructor; constructor.
  - apply StronglySorted_inv in S. destruct S as [Sl Fy].
    destruct (le x y) eqn:E.
    + constructor; [constructor; assumption |].
      constructor; [exact E |].
      apply Forall_forall. intros z Iz.
      rewrite Forall_forall in Fy.
      exact (le_trans x y z E (Fy z Iz)).
    + constructor; [exact (IH Sl) |].
      apply Forall_forall. intros z Iz.
      apply (Permutation_in _ (insert_by_perm x l)) in Iz.
      destruct Iz as [<- | Iz].
      * destruct (le_total x y) as [T | T]; [congruence | exact T].
      * rewrite Forall_forall in Fy. exact (Fy z Iz).
Qed.

Lemma sort_by_key_sorted (l : list R) :
  StronglySorted (fun a b => le a b = true) (sort_by_key le l).
Proof.
  unfold sort_by_key. induction l as [| x l IH]; simpl; [constructor |].
  apply insert_by_sorted. exact IH.
Qed.
End Sorting.

Lemma StronglySorted_weaken {A} (P Q : A -> A -> Prop) (l : list A) :
  (forall a b, P a b -> Q a b) -> StronglySorted P l -> StronglySorted Q l.
Proof.
  intros W S. induction S as [| a l S IH F]; constructor; [exact IH |].
  apply Forall_forall. intros b I. rewrite Forall_forall in F.
  exact (W a b (F b I)).
Qed.

Lemma StronglySorted_skipn {A} (P : A -> A -> Prop) (n : nat) (l : list A) :
  StronglySorted P l -> StronglySorted P (skipn n l).
Proof.
  revert l. induction n as [| n IH]; intros l S; [exact S |].
  destruct l as [| a l]; [constructor |].
  apply StronglySorted_inv in S. exact (IH l (proj1 S)).
Qed.

Lemma StronglySorted_firstn {A} (P : A -> A -> Prop) (n : nat) (l : list A) :
  StronglySorted P l -> StronglySorted P (firstn n l).
Proof.
  revert l. induction n as [| n IH]; intros l S; [constructor |].
  destruct l as [| a l]; [constructor |].
  apply StronglySorted_inv in S. destruct S as [S F]. simpl.
  constructor; [exact (IH l S) |].
  apply Forall_forall. intros b I. rewrite Forall_forall in F.
  apply F. rewrite <- (firstn_skipn n l). apply in_or_app. left. exact I.
Qed.

Lemma Qle_bool_total (x y : Q) : Qle_bool x y = true \/ Qle_bool y x = true.
Proof.
  destruct (Qlt_le_dec x y) as [L | L].
  - left. apply Qle_bool_iff. apply Qlt_le_weak. exact L.
  - right. apply Qle_bool_iff. exact L.
Qed.

Lemma Qle_bool_trans (x y z : Q) :
  Qle_bool x y = true -> Qle_bool y z = true -> Qle_bool x z = true.
Proof.
  rewrite !Qle_bool_iff. apply Qle_trans.
Qed.

Lemma null_le_total {A} (le : A -> A -> bool) (a b : option A) :
  (forall x y, le x y = true \/ le y x = true) ->
  null_le le a b = true \/ null_le le b a = true.
Proof.
  intros T. destruct a as [x |], b as [y |]; simpl; auto.
Qed.

Lemma null_le_trans {A} (le : A -> A -> bool) (a b c : option A) :
  (forall x y z, le x y = true -> le y z = true -> le x z = true) ->
  null_le le a b = true -> null_le le b c = true -> null_le le a c = true.
Proof.
  intros T. destruct a as [x |], b as [y |], c as [z |]; simpl;
    try congruence; try reflexivity.
  apply T.
Qed.

Lemma sorted_asc_price (l : list Product.t) :
  StronglySorted price_ascending
    (sort_by_key (asc Qle_bool Product.price) l).
Proof.
  apply StronglySorted_weaken
    with (P := fun a b => asc Qle_bool Product.price a b = true).
  - intros a b L x y Ea Eb. unfold asc in L. rewrite Ea, Eb in L.
    apply Qle_bool_iff. exact L.
  - apply sort_by_key_sorted.
    + intros a b. apply null_le_total. exact Qle_bool_total.
    + intros a b c. apply null_le_trans. exact Qle_bool_trans.
Qed.

Lemma sorted_desc_price (l : list Product.t) :
  StronglySorted price_descending
    (sort_by_key (desc Qle_bool Product.price) l).
Proof.
  apply StronglySorted_weaken
    with (P := fun a b => desc Qle_bool Product.price a b = true).
  - intros a b L x y Eb Ea. unfold desc in L. rewrite Ea, Eb in L.
    apply Qle_bool_iff. exact L.
  - apply sort_by_key_sorted.
    + intros a b. apply null_le_total. exact Qle_bool_total.
    + intros a b c L1 L2. unfold desc in *.
      exact (null_le_trans Qle_bool _ _ _ Qle_bool_trans L2 L1).
Qed.

Lemma select_order_by (o : Product.t -> Product.t -> bool)
  (l : list Product.t) :
  Query.select (Query.order_by (session_query Product.t) o) l
  = sort_by_key o l.
Proof.
  change (Query.select (Query.order_by (session_query Product.t) o) l)
    with (sort_by_key o (Query.select (session_query Product.t) l)).
  rewrite select_all. reflexivity.
Qed.

(** X17.  The listing sorted by price returns every stored product once,
    in ascending order of price when [order] is "asc" and in descending
    order for any other [order]; it never touches the store.  (Products
    without a price are listed too; the order is stated on the prices
    that exist.) *)
Theorem sort_products_by_price_sorts :
  forall (s : Session) (order : string),
    exists items : list Product.t,
      sort_products_by_price order s
      = (Return items, after s (SELECT TProduct))
      /\ Permutation items (products (db s))
      /\ (order = "asc"%string -> StronglySorted price_ascending items)
      /\ (order <> "asc"%string -> StronglySorted price_descending items).
Proof.
  intros s order. unfold sort_products_by_price.
  destruct (String.eqb_spec order "asc") as [E | E].
  - exists (sort_by_key (asc Qle_bool Product.price) (products (db s))).
    split; [rewrite all_run, select_order_by; reflexivity |].
    split; [apply sort_by_key_perm |].
    split; [intros _; apply sorted_asc_price | congruence].
  - exists (sort_by_key (desc Qle_bool Product.price) (products (db s))).
    split; [rewrite all_run, select_order_by; reflexivity |].
    split; [apply sort_by_key_perm |].
    split; [congruence | intros _; apply sorted_desc_price].
Qed.

Lemma sort_products_by_price_sorts_witness :
  exists items : list Product.t,
    sort_products_by_price "desc" shop
    = (Return items, after shop (SELECT TProduct))
    /\ Permutation items (products (db shop))
    /\ StronglySorted price_descending items.
Proof.
  destruct (sort_products_by_price_sorts shop "desc")
    as (items & E & P & _ & D).
  exists items. split; [exact E |]. split; [exact P |].
  apply D. discriminate.
Defined.

(** *** The page of an advanced search *)

Lemma ordered_perm {R} (keys : list (R -> R -> bool)) (l : list R) :
  Permutation (ordered keys l) l.
Proof.
  unfold ordered. induction keys as [| k keys IH]; simpl;
    [apply Permutation_refl |].
  apply perm_trans with (fold_right sort_by_key l keys);
    [apply sort_by_key_perm | exact IH].
Qed.

Lemma in_paged {R} (off lim : option Z) (l : list R) (x : R) :
  In x (paged off lim l) -> In x l.
Proof.
  unfold paged. intros I.
  assert (I1 : In x match off with
                    | Some n => skipn (Z.to_nat n) l
                    | None => l
                    end).
  { destruct lim as [n |]; [| exact I].
    rewrite <- (firstn_skipn (Z.to_nat n) _). apply in_or_app. left.
    exact I. }
  destruct off as [n |]; [| exact I1].
  rewrite <- (firstn_skipn (Z.to_nat n) l). apply in_or_app. right.
  exact I1.
Qed.

Lemma apply_sort_shape (sort_by : option string) (q : Query.t Product.t) :
  Query.where_ (apply_sort sort_by q) = Query.where_ q
  /\ Query.order (apply_sort sort_by q)
     = (Query.order q ++ order_keys sort_by)%list
  /\ Query.offset_ (apply_sort sort_by q) = Query.offset_ q
  /\ Query.limit_ (apply_sort sort_by q) = Query.limit_ q.
Proof.
  unfold order_keys, apply_sort.
  destruct sort_by as [k |]; simpl;
    [| rewrite app_nil_r; repeat split].
  destruct (truthy_str k); [| simpl; rewrite app_nil_r; repeat split].
  repeat match goal with
         | |- context [if ?b then _ else _] => destruct b
         end; simpl; rewrite ?app_nil_r; repeat split.
Qed.

(** The items of a successful advanced search: the window of the matching
    products, put in the order that [sort_by] asks for. *)
Lemma advanced_search_items (name : option string) (category_id : option Z)
  (min_price max_price : option Q) (in_stock : option bool)
  (sort_by : option string) (limit offset : Z) (l : list Product.t) :
  valid_filters name category_id min_price max_price = true ->
  Query.select
    (Query.limit
       (Query.offset
          (apply_sort sort_by
             (apply_filters name category_id min_price max_price in_stock
                (session_query Product.t)))
          offset)
       limit) l
  = firstn (Z.to_nat limit)
      (skipn (Z.to_nat offset)
         (ordered (order_keys sort_by)
            (List.filter
               (matches_filters name category_id min_price max_price
                  in_stock) l))).
Proof.
  intros V.
  destruct (apply_filters_selected name category_id min_price max_price
              in_stock V) as [(Uo & _ & _) E].
  cbv zeta in Uo, E.
  set (q := apply_filters name category_id min_price max_price in_stock
              (session_query Product.t)) in *.
  destruct (apply_sort_shape sort_by q) as (W & O & _ & _).
  unfold Query.select, Query.selected, paged; simpl.
  rewrite W, O, Uo. simpl.
  f_equal. f_equal. f_equal. apply filter_ext. exact E.
Qed.



(** *** The advanced search and the listings by one criterion *)

Lemma advanced_search_plain_run (s : Session) (name : option string)
  (category_id : option Z) (min_price max_price : option Q)
  (in_stock : option bool) (limit offset : Z) :
  valid_filters name category_id min_price max_price = true ->
  consistent_bounds min_price max_price ->
  known_category (db s) category_id ->
  let l := List.filter
             (matches_filters name category_id min_price max_price in_stock)
             (products (db s)) in
  advanced_search_products name category_id min_price max_price in_stock
    None limit offset s
  = (Return
       (Paginated.make (Z.of_nat (List.length l)) limit offset
          (firstn (Z.to_nat limit) (skipn (Z.to_nat offset) l))),
     searched s category_id).
Proof.
  intros V C K l.
  rewrite (advanced_search_run s name category_id min_price max_price
             in_stock None limit offset V C K).
  rewrite (advanced_search_items _ _ _ _ _ None limit offset _ V).
  reflexivity.
Qed.

(** X19.  The advanced search with one criterion and no [sort_by] pages
    the listing by that criterion: asked after [search_products],
    [filter_products_by_price], [filter_products_by_stock] or
    [get_products_by_category_id] with the same criterion, it reports as
    [total] the length of the list that the listing returned and returns
    the window [offset, offset + limit) of that list. *)
Theorem advanced_search_pages_listings :
  forall (s : Session) (limit offset : Z),
    let page (l : list Product.t) (r : Paginated.t) :=
      Paginated.total r = Z.of_nat (List.length l)
      /\ Paginated.items r
         = firstn (Z.to_nat limit) (skipn (Z.to_nat offset) l) in
    (forall n : string,
       n <> EmptyString ->
       exists l r s1 s2,
         search_products (Some n) s = (Return l, s1)
         /\ advanced_search_products (Some n) None None None None None
              limit offset s1 = (Return r, s2)
         /\ page l r)
    /\ (forall min_price max_price : option Q,
          valid_filters None None min_price max_price = true ->
          consistent_bounds min_price max_price ->
          exists l r s1 s2,
            filter_products_by_price min_price max_price s = (Return l, s1)
            /\ advanced_search_products None None min_price max_price None
                 None limit offset s1 = (Return r, s2)
            /\ page l r)
    /\ (forall b : bool,
          exists l r s1 s2,
            filter_products_by_stock b s = (Return l, s1)
            /\ advanced_search_products None None None None (Some b) None
                 limit offset s1 = (Return r, s2)
            /\ page l r)
    /\ (forall (k : Z) (c : Category.t),
          0 < k ->
          category_of (db s) k = Some c ->
          exists l r s1 s2,
            get_products_by_category_id k s = (Return l, s1)
            /\ advanced_search_products None (Some k) None None None None
                 limit offset s1 = (Return r, s2)
            /\ page l r).
Proof.
  intros s limit offset page.
  assert (C0 : consistent_bounds None None)
    by (intros lo hi E; discriminate E).
  assert (K0 : forall s0 : Session, known_category (db s0) None)
    by (intros s0 c E; discriminate E).
  split; [| split; [| split]].
  - intros n Hn.
    assert (V : valid_filters (Some n) None None None = true).
    { destruct n as [| a n]; [congruence |].
      unfold valid_filters. rewrite !andb_true_r.
      apply Z.leb_le. cbn [String.length]. lia. }
    do 4 eexists.
    split; [apply search_products_run |].
    split; [exact (advanced_search_plain_run _ _ _ _ _ _ _ _ V C0 (K0 _)) |].
    replace (truthy_opt_str (Some n)) with true
      by (destruct n; [congruence | reflexivity]).
    split; reflexivity.
  - intros min_price max_price V C.
    do 4 eexists.
    split; [exact (filter_products_by_price_run _ _ s C) |].
    split; [exact (advanced_search_plain_run _ _ _ _ _ _ _ _ V C (K0 _)) |].
    split; reflexivity.
  - intros b.
    assert (E : forall l : list Product.t,
               List.filter (matches_filters None None None None (Some b)) l
               = List.filter (eq_col Bool.eqb Product.in_stock b) l)
      by (intros l; apply filter_ext; intros p; reflexivity).
    do 4 eexists.
    split; [apply all_where_run |].
    split; [exact (advanced_search_plain_run _ None None None None (Some b)
                     _ _ eq_refl C0 (K0 _)) |].
    split; simpl; rewrite E; reflexivity.
  - intros k c P F.
    assert (V : valid_filters None (Some k) None None = true).
    { unfold valid_filters. apply Z.ltb_lt in P. rewrite P. reflexivity. }
    assert (K : known_category (db (after (after s (SELECT TCategory))
                                      (SELECT TProduct))) (Some k)).
    { intros j E. injection E as <-. simpl. rewrite F. discriminate. }
    assert (E : forall l : list Product.t,
               List.filter (matches_filters None (Some k) None None None) l
               = List.filter (eq_col Z.eqb Product.category_id k) l).
    { intros l. apply filter_ext. intros p.
      unfold matches_filters, when. rewrite !andb_true_r. reflexivity. }
    do 4 eexists.
    split.
    { unfold get_products_by_category_id.
      erewrite bind_run;
        [| rewrite category_exists_check_run, F; reflexivity].
      apply all_where_run. }
    split; [exact (advanced_search_plain_run _ None (Some k) None None None
                     _ _ V C0 K) |].
    split; simpl; rewrite E; reflexivity.
Qed.

Lemma advanced_search_pages_listings_witness :
  exists l r s1 s2,
    get_products_by_category_id 1 shop = (Return l, s1)
    /\ advanced_search_products None (Some 1) None None None None 1 1 s1
       = (Return r, s2)
    /\ Paginated.total r = Z.of_nat (List.length l)
    /\ Paginated.items r = firstn (Z.to_nat 1) (skipn (Z.to_nat 1) l).
Proof.
  destruct (advanced_search_pages_listings shop 1 1) as (_ & _ & _ & G).
  assert (P : 0 < 1) by reflexivity.
  exact (G 1 electronics P eq_refl).
Defined.

(** *** Statistics *)

Lemma get_products_statistics_run (s : Session) :
  exists s' : Session,
    get_products_statistics s
    = (Return
         (let ps := products (db s) in
          let total := Z.of_nat (List.length ps) in
          let in_stock := number_of is_in_stock ps in
          ProductsStatistics.make total
            (Z.of_nat (List.length (categories (db s))))
            in_stock
            (if negb (total =? 0) then total - in_stock else 0)
            (func_avg Product.price ps)
            (func_min Product.price ps)
            (func_max Product.price ps)
            (option_map summary
               (hd_error (sort_by_key (desc Qle_bool Product.price) ps)))
            (option_map summary
               (hd_error (sort_by_key (asc Qle_bool Product.price) ps)))),
       s')
    /\ db s' = db s.
Proof.
  unfold get_products_statistics.
  repeat (erewrite bind_run;
          [| first [apply scalar_run | apply first_run]]).
  eexists. split.
  - unfold ret. cbv zeta. apply f_equal2; [| reflexivity].
    rewrite !select_all, !select_order_by, select_one.
    reflexivity.
  - reflexivity.
Qed.


(** *** The aggregates on prices *)

Lemma in_non_null {A} (l : list (option A)) (x : A) :
  In x (non_null l) <-> In (Some x) l.
Proof.
  induction l as [| [y |] l IH]; simpl; [tauto | |].
  - rewrite IH. split; intros [E | I]; auto; left; congruence.
  - rewrite IH. split; [auto | intros [E | I]; [discriminate E | exact I]].
Qed.

Lemma in_prices (l : list Product.t) (x : Q) :
  In x (non_null (map Product.price l))
  <-> exists p, In p l /\ Product.price p = Some x.
Proof.
  rewrite in_non_null, in_map_iff. split; intros (p & A & B); exists p; auto.
Qed.

Lemma least_spec (x : Q) (xs : list Q) :
  let m := fold_right (fun a m => if Qle_bool a m then a else m) x xs in
  In m (x :: xs) /\ forall y, In y (x :: xs) -> (m <= y)%Q.
Proof.
  induction xs as [| a xs IH]; simpl.
  - split; [left; reflexivity |].
    intros y [<- | []]. apply Qle_refl.
  - simpl in IH. destruct IH as [I L].
    set (m := fold_right (fun a m => if Qle_bool a m then a else m) x xs)
      in *.
    destruct (Qle_bool a m) eqn:E.
    + apply Qle_bool_iff in E. split; [right; left; reflexivity |].
      intros y [<- | [<- | Iy]].
      * apply Qle_trans with m; [exact E | apply L; left; reflexivity].
      * apply Qle_refl.
      * apply Qle_trans with m; [exact E | apply L; right; exact Iy].
    + split; [destruct I as [I | I]; [left; exact I | right; right; exact I] |].
      intros y [<- | [<- | Iy]].
      * apply L. left. reflexivity.
      * destruct (Qle_bool_total a m) as [T | T]; [congruence |].
        apply Qle_bool_iff. exact T.
      * apply L. right. exact Iy.
Qed.

Lemma greatest_spec (x : Q) (xs : list Q) :
  let m := fold_right (fun a m => if Qle_bool m a then a else m) x xs in
  In m (x :: xs) /\ forall y, In y (x :: xs) -> (y <= m)%Q.
Proof.
  induction xs as [| a xs IH]; simpl.
  - split; [left; reflexivity |].
    intros y [<- | []]. apply Qle_refl.
  - simpl in IH. destruct IH as [I L].
    set (m := fold_right (fun a m => if Qle_bool m a then a else m) x xs)
      in *.
    destruct (Qle_bool m a) eqn:E.
    + apply Qle_bool_iff in E. split; [right; left; reflexivity |].
      intros y [<- | [<- | Iy]].
      * apply Qle_trans with m; [apply L; left; reflexivity | exact E].
      * apply Qle_refl.
      * apply Qle_trans with m; [apply L; right; exact Iy | exact E].
    + split; [destruct I as [I | I]; [left; exact I | right; right; exact I] |].
      intros y [<- | [<- | Iy]].
      * apply L. left. reflexivity.
      * destruct (Qle_bool_total m a) as [T | T]; [congruence |].
        apply Qle_bool_iff. exact T.
      * apply L. right. exact Iy.
Qed.

(** What the three aggregates return on a list of rows. *)
Lemma aggregates_spec (l : list Product.t) :
  match non_null (map Product.price l) with
  | [] =>
      func_avg Product.price l = None
      /\ func_min Product.price l = None
      /\ func_max Product.price l = None
  | _ :: _ =>
      exists lo av hi : Q,
        func_min Product.price l = Some lo
        /\ func_avg Product.price l = Some av
        /\ func_max Product.price l = Some hi
        /\ In lo (non_null (map Product.price l))
        /\ In hi (non_null (map Product.price l))
        /\ (forall x, In x (non_null (map Product.price l)) ->
                      (lo <= x <= hi)%Q)
  end.
Proof.
  unfold func_avg, func_min, func_max.
  destruct (non_null (map Product.price l)) as [| x xs]; [repeat split |].
  destruct (least_spec x xs) as [Il Ll].
  destruct (greatest_spec x xs) as [Ig Lg].
  cbv zeta in Il, Ll, Ig, Lg.
  do 3 eexists.
  split; [reflexivity |]. split; [reflexivity |]. split; [reflexivity |].
  split; [exact Il |]. split; [exact Ig |].
  intros y I. split; [exact (Ll y I) | exact (Lg y I)].
Qed.

Lemma statistics_result (s : Session) :
  exists (r : ProductsStatistics.t) (s' : Session),
    get_products_statistics s = (Return r, s')
    /\ ProductsStatistics.average_price r
       = func_avg Product.price (products (db s))
    /\ ProductsStatistics.min_price r
       = func_min Product.price (products (db s))
    /\ ProductsStatistics.max_price r
       = func_max Product.price (products (db s))
    /\ ProductsStatistics.most_expensive_product r
       = option_map summary
           (hd_error (sort_by_key (desc Qle_bool Product.price)
                        (products (db s))))
    /\ ProductsStatistics.cheapest_product r
       = option_map summary
           (hd_error (sort_by_key (asc Qle_bool Product.price)
                        (products (db s)))).
Proof.
  destruct (get_products_statistics_run s) as (s' & E & _).
  eexists. exists s'. split; [exact E |]. repeat split.
Qed.

(** X21.  The price aggregates of the statistics: when no stored product
    has a price (an empty table included) the average, the minimum and
    the maximum are all null; as soon as one has, all three are there,
    and the minimum and the maximum are prices of stored products that
    bound every price. *)
Theorem statistics_prices :
  forall s : Session,
    exists (r : ProductsStatistics.t) (s' : Session),
      get_products_statistics s = (Return r, s')
      /\ ((forall p, In p (products (db s)) -> Product.price p = None) ->
          ProductsStatistics.average_price r = None
          /\ ProductsStatistics.min_price r = None
          /\ ProductsStatistics.max_price r = None)
      /\ (forall p x,
            In p (products (db s)) -> Product.price p = Some x ->
            exists lo av hi : Q,
              ProductsStatistics.min_price r = Some lo
              /\ ProductsStatistics.average_price r = Some av
              /\ ProductsStatistics.max_price r = Some hi
              /\ (lo <= x <= hi)%Q
              /\ (exists p1, In p1 (products (db s))
                             /\ Product.price p1 = Some lo)
              /\ (exists p2, In p2 (products (db s))
                             /\ Product.price p2 = Some hi)).
Proof.
  intros s.
  destruct (statistics_result s) as (r & s' & E & Ea & Emin & Emax & _).
  exists r, s'. split; [exact E |].
  rewrite Ea, Emin, Emax.
  pose proof (aggregates_spec (products (db s))) as A.
  split.
  - intros N.
    destruct (non_null (map Product.price (products (db s))))
      as [| y ys] eqn:P; [destruct A as (A1 & A2 & A3); auto |].
    assert (I : In y (non_null (map Product.price (products (db s)))))
      by (rewrite P; left; reflexivity).
    apply in_prices in I. destruct I as (p & Ip & Ep).
    rewrite (N p Ip) in Ep. discriminate Ep.
  - intros p x Ip Ep.
    assert (I : In x (non_null (map Product.price (products (db s)))))
      by (apply in_prices; exists p; auto).
    destruct (non_null (map Product.price (products (db s))))
      as [| y ys] eqn:P; [destruct I |].
    destruct A as (lo & av & hi & A1 & A2 & A3 & Il & Ih & B).
    exists lo, av, hi.
    split; [exact A1 |]. split; [exact A2 |]. split; [exact A3 |].
    split; [exact (B x I) |].
    rewrite <- P in Il, Ih.
    split; apply in_prices; assumption.
Qed.

Lemma statistics_prices_witness :
  exists (r : ProductsStatistics.t) (s' : Session),
    get_products_statistics shop = (Return r, s')
    /\ exists lo av hi : Q,
         ProductsStatistics.min_price r = Some lo
         /\ ProductsStatistics.average_price r = Some av
         /\ ProductsStatistics.max_price r = Some hi
         /\ (lo <= 10 <= hi)%Q.
Proof.
  destruct (statistics_prices shop) as (r & s' & E & _ & P).
  exists r, s'. split; [exact E |].
  destruct (P phone 10%Q (or_introl eq_refl) eq_refl)
    as (lo & av & hi & A1 & A2 & A3 & B & _).
  exists lo, av, hi. repeat split; tauto.
Defined.

Lemma sorted_desc_rows (l : list Product.t) :
  StronglySorted (fun a b => desc Qle_bool Product.price a b = true)
    (sort_by_key (desc Qle_bool Product.price) l).
Proof.
  apply sort_by_key_sorted.
  - intros a b. apply null_le_total. exact Qle_bool_total.
  - intros a b c L1 L2. unfold desc in *.
    exact (null_le_trans Qle_bool _ _ _ Qle_bool_trans L2 L1).
Qed.

Lemma sorted_asc_rows (l : list Product.t) :
  StronglySorted (fun a b => asc Qle_bool Product.price a b = true)
    (sort_by_key (asc Qle_bool Product.price) l).
Proof.
  apply sort_by_key_sorted.
  - intros a b. apply null_le_total. exact Qle_bool_total.
  - intros a b c. apply null_le_trans. exact Qle_bool_trans.
Qed.

(** The first row of a sorted non-empty list: a row of the list that
    stands in the order to every row of the list. *)
Lemma first_of_sorted (le : Product.t -> Product.t -> bool)
  (l : list Product.t) :
  (forall a, le a a = true) ->
  StronglySorted (fun a b => le a b = true) (sort_by_key le l) ->
  l <> [] ->
  exists h, hd_error (sort_by_key le l) = Some h
            /\ In h l
            /\ forall p, In p l -> le h p = true.
Proof.
  intros Refl S N.
  pose proof (sort_by_key_perm le l) as P.
  destruct (sort_by_key le l) as [| h t] eqn:E.
  - apply Permutation_nil in P. congruence.
  - exists h. split; [reflexivity |].
    split; [apply (Permutation_in _ P); left; reflexivity |].
    intros p I. apply (Permutation_in _ (Permutation_sym P)) in I.
    apply StronglySorted_inv in S. destruct S as [_ F].
    rewrite Forall_forall in F.
    destruct I as [<- | I]; [apply Refl | exact (F p I)].
Qed.

Lemma null_le_refl (a : option Q) : null_le Qle_bool a a = true.
Proof.
  destruct a as [x |]; [| reflexivity]. simpl.
  apply Qle_bool_iff. apply Qle_refl.
Qed.



(** *** The counts, again *)

Lemma number_of_and_le {R} (f g : R -> bool) (l : list R) :
  number_of (fun x => f x && g x) l <= number_of f l.
Proof.
  unfold number_of. apply inj_le.
  induction l as [| x l IH]; simpl; [lia |].
  destruct (f x), (g x); simpl; lia.
Qed.

Lemma number_of_none {R} (f : R -> bool) (l : list R) :
  (forall x, f x = false) -> number_of f l = 0.
Proof.
  intros N. unfold number_of.
  induction l as [| x l IH]; simpl; [reflexivity |].
  rewrite N. exact IH.
Qed.

(** X23.  The counts of the count operation are consistent: [in_stock]
    and [out_of_stock] lie between 0 and [total]; with the filter
    [in_stock = true] every counted product is in stock and
    [out_of_stock] is 0; with [in_stock = false] the count [in_stock] is
    0 and [out_of_stock] is [total]; and an advanced search with the same
    two criteria, asked next, reports the same [total]. *)
Theorem products_count_consistent :
  forall (s : Session) (category_id : option Z) (in_stock : option bool),
    known_category (db s) category_id ->
    (forall c, category_id = Some c -> 0 < c) ->
    exists (r : ProductsCount.t) (s' : Session),
      get_products_count category_id in_stock s = (Return r, s')
      /\ 0 <= ProductsCount.in_stock r <= ProductsCount.total r
      /\ 0 <= ProductsCount.out_of_stock r <= ProductsCount.total r
      /\ (in_stock = Some true ->
          ProductsCount.in_stock r = ProductsCount.total r
          /\ ProductsCount.out_of_stock r = 0)
      /\ (in_stock = Some false ->
          ProductsCount.in_stock r = 0
          /\ ProductsCount.out_of_stock r = ProductsCount.total r)
      /\ forall (sort_by : option string) (limit offset : Z),
           exists (r' : Paginated.t) (s'' : Session),
             advanced_search_products None category_id None None in_stock
               sort_by limit offset s'
             = (Return r', s'')
             /\ Paginated.total r' = ProductsCount.total r.
Proof.
  intros s category_id in_stock K P.
  destruct (get_products_count_run category_id in_stock s K)
    as (s' & E & D).
  eexists. exists s'. split; [exact E |].
  cbn [ProductsCount.total ProductsCount.in_stock ProductsCount.out_of_stock].
  pose proof (number_of_and_le (matches_count category_id in_stock)
                is_in_stock (products (db s))) as L.
  assert (Z0 : 0 <= number_of
                      (fun p => matches_count category_id in_stock p
                                && is_in_stock p) (products (db s)))
    by (unfold number_of; lia).
  split; [lia |]. split; [lia |].
  split; [| split].
  - intros ->.
    assert (Q : number_of
                  (fun p => matches_count category_id (Some true) p
                            && is_in_stock p) (products (db s))
                = number_of (matches_count category_id (Some true))
                    (products (db s))).
    { apply number_of_ext. intros p.
      unfold matches_count, when, is_in_stock.
      destruct (eq_col Bool.eqb Product.in_stock true p);
        rewrite ?andb_true_r, ?andb_false_r; reflexivity. }
    rewrite Q. split; [reflexivity | lia].
  - intros ->.
    assert (Q : number_of
                  (fun p => matches_count category_id (Some false) p
                            && is_in_stock p) (products (db s)) = 0).
    { apply number_of_none. intros p.
      unfold matches_count, when, is_in_stock, eq_col.
      destruct (Product.in_stock p) as [[|] |]; simpl;
        rewrite ?andb_true_r, ?andb_false_r; reflexivity. }
    rewrite Q. split; [reflexivity | lia].
  - intros sort_by limit offset.
    assert (V : valid_filters None category_id None None = true).
    { unfold valid_filters. destruct category_id as [c |]; [| reflexivity].
      specialize (P c eq_refl). apply Z.ltb_lt in P. rewrite P.
      reflexivity. }
    assert (C : consistent_bounds None None)
      by (intros lo hi X; discriminate X).
    assert (K' : known_category (db s') category_id)
      by (rewrite D; exact K).
    eexists. eexists.
    split; [exact (advanced_search_run s' None category_id None None
                     in_stock sort_by limit offset V C K') |].
    cbn [Paginated.total]. rewrite D.
    apply number_of_ext. intros p.
    unfold matches_filters, matches_count, when.
    rewrite andb_true_l, !andb_true_r. reflexivity.
Qed.

Lemma products_count_consistent_witness :
  known_category (db shop) (Some 1)
  /\ exists (r : ProductsCount.t) (s' : Session),
       get_products_count (Some 1) (Some false) shop = (Return r, s')
       /\ ProductsCount.in_stock r = 0
       /\ ProductsCount.out_of_stock r = ProductsCount.total r.
Proof.
  assert (K : known_category (db shop) (Some 1)).
  { intros c E. injection E as <-. discriminate. }
  assert (P : forall c, Some 1 = Some c -> 0 < c).
  { intros c E. injection E as <-. reflexivity. }
  split; [exact K |].
  destruct (products_count_consistent shop (Some 1) (Some false) K P)
    as (r & s' & E & _ & _ & _ & F & _).
  exists r, s'. split; [exact E |]. exact (F eq_refl).
Defined.

(** *** A released name *)

Lemma delete_category_run (k : Z) (s : Session) (c : Category.t) :
  category_of (db s) k = Some c ->
  linked_products (db s) c = 0 ->
  delete_category k s
  = (Return "Category deleted successfully",
     mkSession (mkDatabase (remove c (categories (db s))) (products (db s)))
       (executed s ++ [SELECT TCategory; SELECT TProduct; DELETE TCategory])).
Proof.
  intros F L. unfold delete_category.
  rewrite (bind_run _ _ _ _ _ (get_category_run k s)), F.
  rewrite (bind_run _ _ _ _ _ (count_products_run c _)).
  change (linked_products (db (after s (SELECT TCategory))) c)
    with (linked_products (db s) c).
  rewrite L. unfold delete_category_row, bind; simpl.
  rewrite <- !app_assoc. reflexivity.
Qed.

(** X24.  A deleted category releases its name: in a store where category
    names are distinct, after [delete_category] has deleted a category,
    [create_category] with the name of the deleted category returns
    normally, and [get_one_category] on the key it returns gives the new
    category. *)
Theorem delete_category_releases_name :
  forall (s : Session) (k : Z) (c : Category.t) (descr : option string),
    unique_names (db s) ->
    category_of (db s) k = Some c ->
    linked_products (db s) c = 0 ->
    exists (s1 s2 s3 : Session) (c' : Category.t),
      delete_category k s = (Return "Category deleted successfully", s1)
      /\ create_category (CategoryCreate.make (Category.name c) descr) s1
         = (Return c', s2)
      /\ Category.name c' = Category.name c
      /\ Category.description c' = descr
      /\ get_one_category (Category.id c') s2 = (Return c', s3).
Proof.
  intros s k c descr U F L.
  pose (s1 := mkSession
                (mkDatabase (remove c (categories (db s))) (products (db s)))
                (executed s
                 ++ [SELECT TCategory; SELECT TProduct; DELETE TCategory])).
  assert (N : forall c0, In c0 (categories (db s1)) ->
                         Category.name c0
                         <> CategoryCreate.name
                              (CategoryCreate.make (Category.name c) descr)).
  { intros c0 I E. simpl in I, E. unfold remove in I.
    apply filter_In in I. destruct I as [I X].
    apply find_some in F. destruct F as [Ic _].
    assert (c0 = c) by exact (NoDup_map_eq Category.name _ c0 c U I Ic E).
    subst c0. simpl in X. rewrite Z.eqb_refl in X. discriminate X. }
  pose (c' := Category.make (fresh_id (categories (db s1)))
                (Category.name c) descr).
  assert (Fresh : forall c0, In c0 (categories (db s1)) ->
                             Category.id c0 <> Category.id c').
  { intros c0 I. pose proof (key_below_fresh _ c0 I) as B.
    simpl in B |- *. lia. }
  exists s1. do 2 eexists. exists c'.
  split; [exact (delete_category_run k s c F L) |].
  split; [exact (create_category_run _ s1 N) |].
  split; [reflexivity |]. split; [reflexivity |].
  unfold get_one_category.
  erewrite bind_run; [| apply get_run].
  change (find (fun r : Category.t => primary_key r =? Category.id c')
            (rows (db _)))
    with (find (fun x => Category.id x =? Category.id c')
            (categories (db s1) ++ [c'])).
  rewrite (find_appended Category.id _ c' Fresh). reflexivity.
Qed.

Lemma delete_category_releases_name_witness :
  unique_names (db shop)
  /\ category_of (db shop) 2 = Some books
  /\ exists (s1 s2 s3 : Session) (c' : Category.t),
       delete_category 2 shop = (Return "Category deleted successfully", s1)
       /\ create_category (CategoryCreate.make "Books" (Some "Again")) s1
          = (Return c', s2)
       /\ Category.name c' = "Books"
       /\ Category.description c' = Some "Again"
       /\ get_one_category (Category.id c') s2 = (Return c', s3).
Proof.
  assert (N : unique_names (db shop)).
  { unfold unique_names; simpl; repeat constructor; simpl;
      intuition discriminate. }
  split; [exact N |].
  split; [reflexivity |].
  exact (delete_category_releases_name shop 2 books (Some "Again") N
           eq_refl eq_refl).
Defined.

(** *** The listing by category name *)

Lemma category_has_name_spec (d : Database) (category : string)
  (p : Product.t) :
  category_has_name d category p = true
  <-> exists c, In c (categories d)
                /\ Product.category_id p = Some (Category.id c)
                /\ Category.name c = category.
Proof.
  unfold category_has_name. rewrite existsb_exists.
  split; intros (c & I & H); exists c; (split; [exact I |]).
  - apply andb_true_iff in H. destruct H as [H1 H2].
    apply String.eqb_eq in H2. split; [| exact H2].
    unfold eq_col in H1.
    destruct (Product.category_id p) as [x |]; [| discriminate H1].
    apply Z.eqb_eq in H1. congruence.
  - destruct H as [H1 H2]. unfold eq_col. rewrite H1, H2.
    rewrite Z.eqb_refl, String.eqb_refl. reflexivity.
Qed.

(** X25.  The listing by category name never touches the store and
    returns, in table order, exactly the stored products whose
    [category_id] is the key of a stored category with that name: a
    product without category, or whose [category_id] names no stored
    category, is never listed.  Where category names are distinct, the
    listing by the name of a stored category is the listing that
    [get_products_by_category_id] gives for its key. *)
Theorem filter_products_by_category_lists :
  forall (s : Session) (category : string),
    exists items : list Product.t,
      filter_products_by_category category s
      = (Return items, after s (SELECT TProduct))
      /\ (forall p, In p items
                    <-> In p (products (db s))
                        /\ exists c, In c (categories (db s))
                                     /\ Product.category_id p
                                        = Some (Category.id c)
                                     /\ Category.name c = category)
      /\ (unique_names (db s) ->
          forall (k : Z) (c : Category.t),
            category_of (db s) k = Some c ->
            Category.name c = category ->
            exists s' : Session,
              get_products_by_category_id k s = (Return items, s')).
Proof.
  intros s category.
  exists (List.filter (category_has_name (db s) category) (products (db s))).
  split.
  { unfold filter_products_by_category.
    erewrite bind_run; [| reflexivity].
    apply all_where_run. }
  split.
  - intros p. rewrite filter_In, category_has_name_spec. reflexivity.
  - intros U k c F E.
    pose proof (find_key Category.id k _ c F) as Ek.
    pose proof F as F'. apply find_some in F'. destruct F' as [Ic _].
    eexists. unfold get_products_by_category_id.
    erewrite bind_run;
      [| rewrite category_exists_check_run, F; reflexivity].
    rewrite all_where_run. f_equal. f_equal.
    apply filter_ext. intros p.
    apply eq_true_iff_eq. rewrite category_has_name_spec.
    unfold eq_col. split.
    + intros H. destruct (Product.category_id p) as [x |];
        [| discriminate H].
      apply Z.eqb_eq in H. subst x.
      exists c. split; [exact Ic |]. split; [congruence | exact E].
    + intros (c' & I' & H1 & H2).
      assert (c' = c)
        by (apply (NoDup_map_eq Category.name _ c' c U I' Ic); congruence).
      subst c'. rewrite H1, Ek. apply Z.eqb_refl.
Qed.

Lemma filter_products_by_category_lists_witness :
  unique_names (db shop)
  /\ exists (items : list Product.t) (s' : Session),
       filter_products_by_category "Electronics" shop
       = (Return items, after shop (SELECT TProduct))
       /\ get_products_by_category_id 1 shop = (Return items, s').
Proof.
  assert (N : unique_names (db shop)).
  { unfold unique_names; simpl; repeat constructor; simpl;
      intuition discriminate. }
  split; [exact N |].
  destruct (filter_products_by_category_lists shop "Electronics")
    as (items & E & _ & G).
  destruct (G N 1 electronics eq_refl eq_refl) as (s' & E').
  exists items, s'. split; [exact E | exact E'].
Defined.

(** *** Writes seen through the listings *)

(** X26.  The two unfiltered listings show the writes: after a successful
    [create_category], [get_categories] returns the list it returned
    before followed by the created category; after [delete_product] of a
    stored product, [get_all_products] returns the products it returned
    before except those under the deleted key, in the same order. *)
Theorem listings_show_writes :
  forall s : Session,
    (forall data : CategoryCreate.t,
       (forall c, In c (categories (db s)) ->
                  Category.name c <> CategoryCreate.name data) ->
       exists (before : list Category.t) (c : Category.t)
              (s0 s1 s2 : Session),
         get_categories s = (Return before, s0)
         /\ create_category data s0 = (Return c, s1)
         /\ get_categories s1 = (Return (before ++ [c])%list, s2))
    /\ (forall (k : Z) (p : Product.t),
          product_of (db s) k = Some p ->
          exists (before : list Product.t) (s0 s1 s2 : Session),
            get_all_products s = (Return before, s0)
            /\ delete_product k s0 = (Return "Product o'chirildi", s1)
            /\ get_all_products s1
               = (Return
                    (List.filter (fun x => negb (Product.id x =? k)) before),
                  s2)).
Proof.
  intros s. split.
  - intros data N.
    do 5 eexists.
    split; [unfold get_categories; rewrite all_run, select_all;
            reflexivity |].
    split; [exact (create_category_run data (after s (SELECT TCategory)) N) |].
    unfold get_categories. rewrite all_run, select_all. reflexivity.
  - intros k p F.
    pose proof (find_key Product.id k _ p F) as K.
    exists (products (db s)), (after s (SELECT TProduct)).
    do 2 eexists.
    split; [unfold get_all_products; rewrite all_run, select_all;
            reflexivity |].
    split; [exact (delete_product_run k (after s (SELECT TProduct)) p F) |].
    unfold get_all_products. rewrite all_run, select_all.
    simpl. unfold remove. simpl. rewrite K. reflexivity.
Qed.

Lemma listings_show_writes_witness :
  exists (before : list Category.t) (c : Category.t) (s0 s1 s2 : Session),
    get_categories shop = (Return before, s0)
    /\ create_category toys s0 = (Return c, s1)
    /\ get_categories s1 = (Return (before ++ [c])%list, s2).
Proof.
  assert (N : forall c, In c (categories (db shop)) ->
                        Category.name c <> CategoryCreate.name toys).
  { intros c [E | [E | []]]; subst c; discriminate. }
  exact (proj1 (listings_show_writes shop) toys N).
Defined.

(** ** The advanced search against the words of the specification *)

Lemma starts_with_ci_spec (n x : string) :
  starts_with_ci n x = true
  <-> exists m b : string,
        x = (m ++ b)%string /\ fold_case m = fold_case n.
Proof.
  revert x. induction n as [| c n IH]; intros x.
  - simpl. split; [| reflexivity].
    intros _. exists EmptyString, x. split; reflexivity.
  - destruct x as [| d x]; simpl.
    + split; [discriminate |].
      intros (m & b & E & F). destruct m; [discriminate F | discriminate E].
    + rewrite andb_true_iff, Ascii.eqb_eq, IH. split.
      * intros [Ec (m & b & E & F)].
        exists (String d m), b. simpl. rewrite E, F, Ec. split; reflexivity.
      * intros (m & b & E & F). destruct m as [| d' m]; [discriminate F |].
        simpl in E, F. injection E as -> E. injection F as Ec F.
        split; [symmetry; exact Ec |]. exists m, b. split; assumption.
Qed.

Lemma occurs_ci_spec (n x : string) :
  occurs_ci n x = true <-> contains_ci x n.
Proof.
  unfold contains_ci. induction x as [| d x IH].
  - simpl. rewrite orb_false_r, starts_with_ci_spec. split.
    + intros (m & b & E & F). exists EmptyString, m, b. split; assumption.
    + intros (a & m & b & E & F). destruct a; [| discriminate E].
      exists m, b. split; assumption.
  - cbn [occurs_ci]. rewrite orb_true_iff, starts_with_ci_spec, IH. split.
    + intros [(m & b & E & F) | (a & m & b & E & F)].
      * exists EmptyString, m, b. split; assumption.
      * exists (String d a), m, b. simpl. rewrite E. split; [reflexivity |].
        exact F.
    + intros (a & m & b & E & F). destruct a as [| c a]; simpl in E.
      * left. exists m, b. split; assumption.
      * right. injection E as _ E. exists a, m, b. split; assumption.
Qed.

(** [meets] decides [meets_criteria]. *)
Lemma meets_spec (name : option string) (category_id : option Z)
  (min_price max_price : option Q) (in_stock : option bool) (p : Product.t) :
  meets name category_id min_price max_price in_stock p = true
  <-> meets_criteria name category_id min_price max_price in_stock p.
Proof.
  unfold meets, meets_criteria. rewrite !andb_true_iff.
  assert (N : match name with
              | None => true
              | Some n => match Product.name p with
                          | Some x => occurs_ci n x
                          | None => false
                          end
              end = true
              <-> (forall n, name = Some n ->
                             exists x, Product.name p = Some x
                                       /\ contains_ci x n)).
  { destruct name as [n |]; [| split; [intros _ ? E; discriminate E
                                      | reflexivity]].
    destruct (Product.name p) as [x |].
    - rewrite occurs_ci_spec. split.
      + intros C ? E. injection E as <-. exists x. split; [reflexivity |].
        exact C.
      + intros H. destruct (H n eq_refl) as (y & E & C).
        injection E as <-. exact C.
    - split; [discriminate |].
      intros H. destruct (H n eq_refl) as (y & E & _). discriminate E. }
  assert (C : match category_id with
              | None => true
              | Some c => match Product.category_id p with
                          | Some k => k =? c
                          | None => false
                          end
              end = true
              <-> (forall c, category_id = Some c ->
                             Product.category_id p = Some c)).
  { destruct category_id as [c |]; [| split; [intros _ ? E; discriminate E
                                             | reflexivity]].
    destruct (Product.category_id p) as [k |].
    - rewrite Z.eqb_eq. split.
      + intros -> ? E. injection E as <-. reflexivity.
      + intros H. specialize (H c eq_refl). congruence.
    - split; [discriminate |].
      intros H. specialize (H c eq_refl). discriminate H. }
  assert (Lo : match min_price with
               | None => true
               | Some lo => match Product.price p with
                            | Some x => Qle_bool lo x
                            | None => false
                            end
               end = true
               <-> (forall lo, min_price = Some lo ->
                               exists x, Product.price p = Some x
                                         /\ (lo <= x)%Q)).
  { destruct min_price as [lo |]; [| split; [intros _ ? E; discriminate E
                                            | reflexivity]].
    destruct (Product.price p) as [x |].
    - rewrite Qle_bool_iff. split.
      + intros L ? E. injection E as <-. exists x. split; [reflexivity |].
        exact L.
      + intros H. destruct (H lo eq_refl) as (y & E & L).
        injection E as <-. exact L.
    - split; [discriminate |].
      intros H. destruct (H lo eq_refl) as (y & E & _). discriminate E. }
  assert (Hi : match max_price with
               | None => true
               | Some hi => match Product.price p with
                            | Some x => Qle_bool x hi
                            | None => false
                            end
               end = true
               <-> (forall hi, max_price = Some hi ->
                               exists x, Product.price p = Some x
                                         /\ (x <= hi)%Q)).
  { destruct max_price as [hi |]; [| split; [intros _ ? E; discriminate E
                                            | reflexivity]].
    destruct (Product.price p) as [x |].
    - rewrite Qle_bool_iff. split.
      + intros L ? E. injection E as <-. exists x. split; [reflexivity |].
        exact L.
      + intros H. destruct (H hi eq_refl) as (y & E & L).
        injection E as <-. exact L.
    - split; [discriminate |].
      intros H. destruct (H hi eq_refl) as (y & E & _). discriminate E. }
  assert (St : match in_stock with
               | None => true
               | Some b => match Product.in_stock p with
                           | Some v => Bool.eqb v b
                           | None => false
                           end
               end = true
               <-> (forall b, in_stock = Some b ->
                              Product.in_stock p = Some b)).
  { destruct in_stock as [b |]; [| split; [intros _ ? E; discriminate E
                                          | reflexivity]].
    destruct (Product.in_stock p) as [v |].
    - rewrite Bool.eqb_true_iff. split.
      + intros -> ? E. injection E as <-. reflexivity.
      + intros H. specialize (H b eq_refl). congruence.
    - split; [discriminate |].
      intros H. specialize (H b eq_refl). discriminate H. }
  rewrite N, C, Lo, Hi, St. tauto.
Qed.

(** For a plain term the handler's conjunction of filters selects the
    products that meet the criteria. *)
Lemma matches_filters_meets (name : option string) (category_id : option Z)
  (min_price max_price : option Q) (in_stock : option bool) (p : Product.t) :
  plain_term name ->
  matches_filters name category_id min_price max_price in_stock p
  = meets name category_id min_price max_price in_stock p.
Proof.
  intros P. unfold matches_filters, meets, when.
  f_equal. f_equal. f_equal. f_equal.
  destruct name as [n |]; [| reflexivity].
  unfold ilike. destruct (Product.name p) as [x |]; [| reflexivity].
  apply eq_true_iff_eq.
  rewrite (like_contains n x (P n eq_refl)), occurs_ci_spec. reflexivity.
Qed.



